(** * The SNOwGLoBES usage notebook (doc/nb/SNOwGLoBES_usage.ipynb)

    The notebook is a straight-line script. After the imports and the two
    paths of its first code cell,
    - the parameter cell sets the parameters of the simulated supernova and
      builds the arrays of time-window boundaries [tstart], [tend], [tmid];
    - the toolkit cell calls [snowglobes.generate_fluence],
      [snowglobes.simulate] and [snowglobes.collate];
    - the plot cell sums the collated tables into per-bin event counts,
      converts them to counts per millisecond and plots them.

    Modelling choices.
    - Times, and the event counts that are plotted, are exact rationals
      ([Q], compared with [==]) where Python has floats; a quantity in
      seconds ([x * u.s]) is its number of seconds.
    - The numeric entries of a collated table are kept abstract (class
      [Numeric]): the aggregation only adds them up, in the order the code
      does, so nothing about the additions is assumed.
    - A Python [str] is a [string] whose characters are the code points below
      256; a [dict] keyed by strings is a [gmap string _]; a one-dimensional
      array is a [list], written by index with [<[i:=x]>] after the bounds
      check that numpy performs.
    - Python exceptions are values of [exn]; fallible code returns
      [exn + A]. *)

From Stdlib Require Import Ascii String QArith Lqa.
From stdpp Require Import gmap strings list fin_maps pretty.

Local Open Scope string_scope.
Local Open Scope list_scope.

(** ** Exceptions *)

Inductive exn : Type :=
  | KeyError (key : string)
  | IndexError (index size : nat)
  | ZeroDivisionError
  | ToolkitError (msg : string).

(** ** The parameter cell *)

Record params : Type := {
  SNOwGLoBES_path : string;
  SNEWPY_models_base : string;
  distance : Z;
  detector : string;
  modeltype : string;
  model : string;
  transformation : string;
  window_tstart : Q;
  window_tend : Q;
  window_bins : nat
}.

(** The values written in the notebook. *)
Definition notebook_params : params := {|
  SNOwGLoBES_path := "/path/to/snowglobes/";
  SNEWPY_models_base := "/path/to/snewpy/models/";
  distance := 10;
  detector := "icecube";
  modeltype := "Zha_2021";
  model := "s17";
  transformation := "AdiabaticMSW_NMO";
  window_tstart := 742 # 1000;
  window_tend := 762 # 1000;
  window_bins := 60
|}.

(** [modelfile = SNEWPY_models_base + "/" + modeltype + "/" + model + '.dat'] *)
Definition modelfile (p : params) : string :=
  SNEWPY_models_base p +:+ "/" +:+ modeltype p +:+ "/" +:+ model p +:+ ".dat".

(** [outfile = modeltype+"_"+model+"_"+transformation] *)
Definition outfile (p : params) : string :=
  modeltype p +:+ "_" +:+ model p +:+ "_" +:+ transformation p.

(** ** The parameter cell: the time windows *)

Definition Qnat (n : nat) : Q := inject_Z (Z.of_nat n).

(** [np.linspace(start, stop, num, endpoint=False)], following numpy's
    [linspace]: [div = num], [delta = stop - start], [y = arange(0, num)];
    when [div > 0], [step = delta / div] and [y = y * step] (or
    [y = y / div * delta] when the step is zero); then [y += start]. *)
Definition linspace (start stop : Q) (num : nat) : list Q :=
  let div := num in
  let delta := (stop - start)%Q in
  let y := map Qnat (seq 0 num) in
  let y :=
    if (0 <? div)%nat then
      let step := (delta / Qnat div)%Q in
      if Qeq_bool step 0
      then map (fun v => v / Qnat div * delta)%Q y
      else map (fun v => v * step)%Q y
    else map (fun v => v * delta)%Q y in
  map (fun v => v + start)%Q y.

Record windows : Type := {
  tstart : list Q;
  tend : list Q;
  tmid : list Q
}.

(** Python's [x / n] for an [int] divisor [n]. *)
Definition div_int (x : Q) (n : nat) : exn + Q :=
  if (n =? 0)%nat then inl ZeroDivisionError else inr (x / Qnat n)%Q.

(** [[
tstart = np.linspace(window_tstart, window_tend, window_bins, endpoint=False) * u.s
tend = tstart + (window_tend - window_tstart) / window_bins * u.s
tmid = (tstart + tend) * 0.5
]] *)
Definition time_windows (p : params) : exn + windows :=
  let ts := linspace (window_tstart p) (window_tend p) (window_bins p) in
  match div_int (window_tend p - window_tstart p) (window_bins p) with
  | inl e => inl e
  | inr width =>
      let te := map (fun t => t + width)%Q ts in
      let tm := zip_with (fun a b => (a + b) * (1 # 2))%Q ts te in
      inr {| tstart := ts; tend := te; tmid := tm |}
  end.

(** The common width of the windows, as the specification writes it. *)
Definition bin_width (p : params) : Q :=
  ((window_tend p - window_tstart p) / Qnat (window_bins p))%Q.

(** ** The collated tables *)

(** The numbers held by a table: a zero and an addition are all the
    aggregation uses. *)
Class Numeric (num : Type) : Type := {
  zero : num;
  add : num -> num -> num
}.

#[export] Instance Q_Numeric : Numeric Q := {| zero := 0%Q; add := Qplus |}.

(** A parsed table: [tables[key]['header']] is a line of column names,
    [tables[key]['data']] holds one array of numbers per column. *)
Record table (num : Type) : Type := {
  header : string;
  data : list (list num)
}.
Arguments header {num} _.
Arguments data {num} _.

(** Python's builtin [sum(xs)]: a left fold that starts from 0. *)
Definition pysum {num : Type} `{!Numeric num} (xs : list num) : num :=
  fold_left add xs zero.

(** [str.isspace] on the code points below 256. *)
Definition isspace (c : ascii) : bool :=
  let n := nat_of_ascii c in
  ((9 <=? n) && (n <=? 13) || (28 <=? n) && (n <=? 32)
   || (n =? 133) || (n =? 160))%nat.

Definition flush (word : string) (rest : list string) : list string :=
  if decide (word = "") then rest else word :: rest.

(** [s.split()]: the maximal runs of characters that are not whitespace. *)
Fixpoint split_go (word : string) (s : string) : list string :=
  match s with
  | EmptyString => flush word []
  | String c s' =>
      if isspace c then flush word (split_go "" s')
      else split_go (word +:+ String c "") s'
  end.

Definition split (s : string) : list string := split_go "" s.

(** ** The plot cell: the keys *)

(** The parts of an f-string: literal text, and replacement fields holding
    a string or an integer (formatted as [str] does). *)
Inductive fpart : Type :=
  | Lit (s : string)
  | FStr (s : string)
  | FInt (n : nat).

Definition fpart_text (part : fpart) : string :=
  match part with
  | Lit s => s
  | FStr s => s
  | FInt n => pretty n
  end.

Definition fstring (parts : list fpart) : string :=
  foldr (fun part acc => fpart_text part +:+ acc) "" parts.

(** [key = f"Collated_{outfile}_{i}_{detector}_events_smeared_weighted.dat"] *)
Definition key (p : params) (i : nat) : string :=
  fstring [Lit "Collated_"; FStr (outfile p); Lit "_"; FInt i; Lit "_";
           FStr (detector p); Lit "_events_smeared_weighted.dat"].

(** ** The plot cell: the aggregation loop *)

(** The loop runs in a state and error monad. The state holds the array
    [nevents]; [reads] is an instrument of the model: the keys with which
    [tables[...]] was evaluated so far, oldest first. *)
Record astate (num : Type) : Type := {
  nevents : list num;
  reads : list string
}.
Arguments nevents {num} _.
Arguments reads {num} _.
Arguments Build_astate {num} _ _.

Definition M (num A : Type) : Type := astate num -> astate num * (exn + A).

Definition mret {num A} (a : A) : M num A := fun s => (s, inr a).

Definition bind {num A B} (m : M num A) (k : A -> M num B) : M num B :=
  fun s =>
    match m s with
    | (s', inr a) => k a s'
    | (s', inl e) => (s', inl e)
    end.

Declare Scope agg_scope.
Delimit Scope agg_scope with agg.
Notation "x <- m ;; k" := (bind m (fun x => k))
  (at level 100, m at next level, right associativity) : agg_scope.
Notation "m ;;; k" := (bind m (fun _ => k))
  (at level 100, right associativity) : agg_scope.

(** [for x in xs: body(x)] *)
Fixpoint for_each {num A} (xs : list A) (body : A -> M num unit) : M num unit :=
  match xs with
  | [] => mret tt
  | x :: xs' => (body x ;;; for_each xs' body)%agg
  end.

(** [range(lo, hi)] *)
Definition range (lo hi : nat) : list nat := seq lo (hi - lo).

(** [tables[key]]: a missing key raises [KeyError]. *)
Definition tables_getitem {num} (tables : gmap string (table num)) (k : string)
  : M num (table num) :=
  fun s =>
    ({| nevents := nevents s; reads := reads s ++ [k] |},
     match tables !! k with
     | Some t => inr t
     | None => inl (KeyError k)
     end).

(** [t['data'][j]]: an index past the last column raises [IndexError]. *)
Definition data_getitem {num} (t : table num) (j : nat) : M num (list num) :=
  fun s =>
    (s, match data t !! j with
        | Some col => inr col
        | None => inl (IndexError j (length (data t)))
        end).

(** [nevents[i]] read and written, with numpy's bounds check. *)
Definition nevents_getitem {num} (i : nat) : M num num :=
  fun s =>
    (s, match nevents s !! i with
        | Some v => inr v
        | None => inl (IndexError i (length (nevents s)))
        end).

Definition nevents_setitem {num} (i : nat) (v : num) : M num unit :=
  fun s =>
    if (i <? length (nevents s))%nat
    then ({| nevents := <[i:=v]> (nevents s); reads := reads s |}, inr tt)
    else (s, inl (IndexError i (length (nevents s)))).

(** [nevents[i] += sum(tables[key]['data'][j])] *)
Definition add_column {num : Type} `{!Numeric num} (tables : gmap string (table num))
    (k : string) (i j : nat) : M num unit :=
  (cur <- nevents_getitem i ;;
   t <- tables_getitem tables k ;;
   col <- data_getitem t j ;;
   nevents_setitem i (add cur (pysum col)))%agg.

(** The body of [for i in range(len(tmid))]. *)
Definition bin_body {num : Type} `{!Numeric num} (p : params) (tables : gmap string (table num))
    (i : nat) : M num unit :=
  let k := key p i in
  (t <- tables_getitem tables k ;;
   for_each (range 1 (length (split (header t)))) (add_column tables k i))%agg.

(** [nevents = np.zeros(len(tmid))] *)
Definition zeros {num : Type} `{!Numeric num} (n : nat) : astate num :=
  {| nevents := replicate n zero; reads := [] |}.

(** [[
nevents = np.zeros(len(tmid))
for i in range(len(tmid)):
    key = f"Collated_{outfile}_{i}_{detector}_events_smeared_weighted.dat"
    for j in range(1,len(tables[key]['header'].split())):
        nevents[i] += sum(tables[key]['data'][j])
]] *)
Definition aggregation_loop {num : Type} `{!Numeric num} (p : params) (len_tmid : nat)
    (tables : gmap string (table num)) : astate num * (exn + unit) :=
  for_each (range 0 len_tmid) (bin_body p tables) (zeros len_tmid).

(** The array [nevents] after the loop, or the exception that stopped it. *)
Definition aggregate {num : Type} `{!Numeric num} (p : params) (len_tmid : nat)
    (tables : gmap string (table num)) : exn + list num :=
  match aggregation_loop p len_tmid tables with
  | (s, inr _) => inr (nevents s)
  | (_, inl e) => inl e
  end.

(** The keys the loop looked up, in order. *)
Definition keys_read {num : Type} `{!Numeric num} (p : params) (len_tmid : nat)
    (tables : gmap string (table num)) : list string :=
  reads (aggregation_loop p len_tmid tables).1.

(** The count of one bin as the specification words it: the sum, over the
    columns after column 0 that the header names, of the sum of the column. *)
Definition column_sums {num : Type} `{!Numeric num} (t : table num) : list num :=
  map pysum (take (length (split (header t)) - 1) (drop 1 (data t))).

Definition nevents_spec {num : Type} `{!Numeric num} (t : table num) : num :=
  pysum (column_sums t).

(** Every column that the header names is there. *)
Definition shape_ok {num} (t : table num) : bool :=
  ((length (split (header t)) <=? 1)
   || (length (split (header t)) <=? length (data t)))%nat.

(** [factor = window_bins / (window_tend - window_tstart) / 1000] *)
Definition factor (p : params) : exn + Q :=
  let d := (window_tend p - window_tstart p)%Q in
  if Qeq_bool d 0 then inl ZeroDivisionError
  else inr (Qnat (window_bins p) / d / 1000)%Q.

(** ** The script and the external toolkit *)

(** The calls into [snewpy.snowglobes], with their arguments in the order
    of the call and the type of what they return. *)
Inductive call : Type -> Type :=
  | generate_fluence (model_path model_type transformation_type : string)
      (d : Z) (output_filename : string) (t_start t_end : list Q) : call string
  | simulate (snowglobes_dir tarball_path detector_input : string) : call unit
  | collate (snowglobes_dir tarball_path : string) (skip_plots : bool)
      : call (gmap string (table Q)).

(** What the notebook shows: [print] and the [matplotlib] calls. They are
    taken to succeed always. *)
Inductive value : Type :=
  | Str (s : string)
  | Num (x : Q).

Inductive output : Type :=
  | print (args : list value)
  | plt_plot (x y : list Q)
  | plt_xlabel (s : string)
  | plt_ylabel (s : string)
  | plt_show.

(** A script is a tree of toolkit calls and outputs. The notebook has no
    [try], so the language has no handler: [Raise] ends the script. *)
Inductive script (A : Type) : Type :=
  | Return (a : A)
  | Raise (e : exn)
  | Emit (o : output) (k : script A)
  | Call {X : Type} (c : call X) (k : X -> script A).
Arguments Return {A} _.
Arguments Raise {A} _.
Arguments Emit {A} _ _.
Arguments Call {A X} _ _.

Fixpoint sbind {A B} (s : script A) (k : A -> script B) : script B :=
  match s with
  | Return a => k a
  | Raise e => Raise e
  | Emit o s' => Emit o (sbind s' k)
  | Call c k' => Call c (fun x => sbind (k' x) k)
  end.

Definition emit (o : output) : script unit := Emit o (Return tt).

Definition invoke {X} (c : call X) : script X := Call c Return.

(** A computation of the notebook's own: its exception, if any, is raised. *)
Definition lift {A} (r : exn + A) : script A :=
  match r with
  | inl e => Raise e
  | inr a => Return a
  end.

Declare Scope script_scope.
Delimit Scope script_scope with script.
Notation "x <- m ;; k" := (sbind m (fun x => k))
  (at level 100, m at next level, right associativity) : script_scope.
Notation "m ;;; k" := (sbind m (fun _ => k))
  (at level 100, right associativity) : script_scope.

(** The parameter cell. *)
Definition cell_windows (p : params) : script windows :=
  lift (time_windows p).

(** The toolkit cell:
[[
print("Preparing fluences ...")
tarredfile = snowglobes.generate_fluence(modelfile, modeltype, transformation, distance, outfile, tstart, tend)
print("Running SNOwGLoBES ...")
snowglobes.simulate(SNOwGLoBES_path, tarredfile, detector_input=detector)
print("Collating results ...")
tables = snowglobes.collate(SNOwGLoBES_path, tarredfile, skip_plots=True)
]] *)
Definition cell_toolkit (p : params) (w : windows)
  : script (gmap string (table Q)) :=
  (emit (print [Str "Preparing fluences ..."]) ;;;
   tarredfile <- invoke (generate_fluence (modelfile p) (modeltype p)
                           (transformation p) (distance p) (outfile p)
                           (tstart w) (tend w)) ;;
   emit (print [Str "Running SNOwGLoBES ..."]) ;;;
   invoke (simulate (SNOwGLoBES_path p) tarredfile (detector p)) ;;;
   emit (print [Str "Collating results ..."]) ;;;
   invoke (collate (SNOwGLoBES_path p) tarredfile true))%script.

(** The plot cell ([%matplotlib inline] only selects where the figure is
    drawn): the aggregation loop, then
[[
factor = window_bins / (window_tend - window_tstart) / 1000
plt.plot(tmid - 0.742 * u.s, nevents * factor)
plt.xlabel("$t-t_{2c}$ [s]")
plt.ylabel("Counts [ms$^{-1}$]")
plt.show()
print("Total Events:", sum(nevents))
]] *)
Definition cell_plot (p : params) (w : windows)
    (tables : gmap string (table Q)) : script unit :=
  (nev <- lift (aggregate p (length (tmid w)) tables) ;;
   f <- lift (factor p) ;;
   emit (plt_plot (map (fun t => t - (742 # 1000))%Q (tmid w))
                  (map (fun n => n * f)%Q nev)) ;;;
   emit (plt_xlabel "$t-t_{2c}$ [s]") ;;;
   emit (plt_ylabel "Counts [ms$^{-1}$]") ;;;
   emit plt_show ;;;
   emit (print [Str "Total Events:"; Num (pysum nev)]))%script.

(** The notebook: its code cells in order. *)
Definition notebook (p : params) : script unit :=
  (w <- cell_windows p ;;
   tables <- cell_toolkit p w ;;
   cell_plot p w tables)%script.

(** ** Running a script *)

(** One entry of the record of a run: an output shown, or a toolkit call
    with what it returned or raised. *)
Inductive entry : Type :=
  | Shown (o : output)
  | Called {X : Type} (c : call X) (r : exn + X).

(** The toolkit is a black box: its answer to a call may depend on
    everything that happened before. *)
Definition toolkit : Type := list entry -> forall X : Type, call X -> exn + X.

(** [run tk h s] runs [s] after the history [h]; it gives the whole record
    and the result of the script or the exception that reached the top. *)
Fixpoint run {A} (tk : toolkit) (h : list entry) (s : script A)
  : list entry * (exn + A) :=
  match s with
  | Return a => (h, inr a)
  | Raise e => (h, inl e)
  | Emit o k => run tk (h ++ [Shown o]) k
  | Call c k =>
      match tk h _ c with
      | inl e => (h ++ [Called c (inl e)], inl e)
      | inr x => run tk (h ++ [Called c (inr x)]) (k x)
      end
  end.

(** The stages of the pipeline that a record shows. *)
Inductive stage : Type :=
  | FluenceGenerator
  | DetectorSimulator
  | Collator
  | Plot.

#[export] Instance stage_eq_dec : EqDecision stage.
Proof. solve_decision. Defined.

Definition stage_of (e : entry) : option stage :=
  match e with
  | Called (generate_fluence _ _ _ _ _ _ _) _ => Some FluenceGenerator
  | Called (simulate _ _ _) _ => Some DetectorSimulator
  | Called (collate _ _ _) _ => Some Collator
  | Shown (plt_plot _ _) => Some Plot
  | Shown _ => None
  end.

Definition stages (h : list entry) : list stage := omap stage_of h.

(** The exception a toolkit call raised, if the entry is such a call. *)
Definition failure_of (x : entry) : option exn :=
  match x with
  | Called _ (inl e) => Some e
  | _ => None
  end.

(** The packaged artifact that a simulator or collator call was given. *)
Definition tarball_of (x : entry) : option string :=
  match x with
  | Called (simulate _ tarball _) _ => Some tarball
  | Called (collate _ tarball _) _ => Some tarball
  | _ => None
  end.

(** The collated mapping has, for bin [i], a table with every column that
    its header names. *)
Definition bin_ok {num} (p : params) (tables : gmap string (table num))
    (i : nat) : bool :=
  match tables !! key p i with
  | Some t => shape_ok t
  | None => false
  end.

(** ** Sample inputs *)

(** A collated mapping for the notebook's 60 bins: every table has an energy
    column and two channels. *)
Definition sample_table : table Q :=
  {| header := "Energy(GeV) ibd nc_O16";
     data := [[1 # 1000; 2 # 1000]; [3; 4]; [5; 6]]%Q |}.

Definition sample_tables : gmap string (table Q) :=
  list_to_map (map (fun i => (key notebook_params i, sample_table)) (seq 0 60)).

(** A mapping with all 60 keys whose tables name a channel that the data
    does not hold. *)
Definition short_table : table Q :=
  {| header := "Energy(GeV) ibd"; data := [[1 # 1000; 2 # 1000]]%Q |}.

Definition short_tables : gmap string (table Q) :=
  list_to_map (map (fun i => (key notebook_params i, short_table)) (seq 0 60)).

(** A toolkit whose calls all return: the collator gives [sample_tables]. *)
Definition sample_toolkit : toolkit :=
  fun _ X c =>
    match c in call X return exn + X with
    | generate_fluence _ _ _ _ output_filename _ _ =>
        inr (output_filename +:+ ".tar.bz2")
    | simulate _ _ _ => inr tt
    | collate _ _ _ => inr sample_tables
    end.

(** A toolkit whose detector simulation fails. *)
Definition failing_toolkit : toolkit :=
  fun _ X c =>
    match c in call X return exn + X with
    | generate_fluence _ _ _ _ output_filename _ _ =>
        inr (output_filename +:+ ".tar.bz2")
    | simulate _ _ _ => inl (ToolkitError "SNOwGLoBES not found")
    | collate _ _ _ => inr sample_tables
    end.

(** ** Reading a record *)

(** The mapping a collator call returned, if the entry is such a call. *)
Definition collated_of (x : entry) : option (gmap string (table Q)) :=
  match x with
  | Called (collate _ _ _) (inr tables) => Some tables
  | _ => None
  end.

(** The two arrays given to [plt.plot], if the entry is that call. *)
Definition plotted_of (x : entry) : option (list Q * list Q) :=
  match x with
  | Shown (plt_plot xs ys) => Some (xs, ys)
  | _ => None
  end.

(** The number printed after a label, if the entry is such a [print]. *)
Definition total_of (x : entry) : option Q :=
  match x with
  | Shown (print [Str _; Num v]) => Some v
  | _ => None
  end.

(** ** Tables that the loop cannot tell apart *)

(** Same number of header words, same number of columns, and the same
    columns from column 1 on. *)
Definition same_summed_columns {num} (t t' : table num) : Prop :=
  length (split (header t)) = length (split (header t')) /\
  length (data t) = length (data t') /\
  forall j, (1 <= j)%nat -> data t !! j = data t' !! j.

(** No character of the string is whitespace. *)
Fixpoint no_space (s : string) : bool :=
  match s with
  | EmptyString => true
  | String c s' => negb (isspace c) && no_space s'
  end.

(** ** More sample inputs *)

(** The notebook's parameters with another window. *)
Definition with_window (t0 t1 : Q) (bins : nat) : params := {|
  SNOwGLoBES_path := SNOwGLoBES_path notebook_params;
  SNEWPY_models_base := SNEWPY_models_base notebook_params;
  distance := distance notebook_params;
  detector := detector notebook_params;
  modeltype := modeltype notebook_params;
  model := model notebook_params;
  transformation := transformation notebook_params;
  window_tstart := t0;
  window_tend := t1;
  window_bins := bins
|}.

(** A toolkit whose calls all return, the collator with the given mapping. *)
Definition toolkit_returning (tables : gmap string (table Q)) : toolkit :=
  fun _ X c =>
    match c in call X return exn + X with
    | generate_fluence _ _ _ _ output_filename _ _ =>
        inr (output_filename +:+ ".tar.bz2")
    | simulate _ _ _ => inr tt
    | collate _ _ _ => inr tables
    end.

(** A table whose header is a single word. *)
Definition bare_table : table Q :=
  {| header := "Energy(GeV)"; data := [] |}.

(** The notebook's parameters with another detector. *)
Definition with_detector (d : string) : params := {|
  SNOwGLoBES_path := SNOwGLoBES_path notebook_params;
  SNEWPY_models_base := SNEWPY_models_base notebook_params;
  distance := distance notebook_params;
  detector := d;
  modeltype := modeltype notebook_params;
  model := model notebook_params;
  transformation := transformation notebook_params;
  window_tstart := window_tstart notebook_params;
  window_tend := window_tend notebook_params;
  window_bins := window_bins notebook_params
|}.

(** The lookups of [tables[key]] that bin [i] makes when its table is in
    order: one for the header, one for each summed column. *)
Definition bin_lookups {num} (p : params) (tables : gmap string (table num))
    (i : nat) : list string :=
  match tables !! key p i with
  | Some t => replicate (S (length (split (header t)) - 1)) (key p i)
  | None => [key p i]
  end.

(** The sample mapping without the key of bin 3. *)
Definition gappy_tables : gmap string (table Q) :=
  delete (key notebook_params 3) sample_tables.

(** The sample mapping with a short table at bin 1 and without the key of
    bin 2. *)
Definition short_then_missing : gmap string (table Q) :=
  delete (key notebook_params 2)
    (<[key notebook_params 1 := short_table]> sample_tables).

(** * Properties *)

(** ** The model on the notebook's values *)

Example key_first :
  key notebook_params 0
  = "Collated_Zha_2021_s17_AdiabaticMSW_NMO_0_icecube_events_smeared_weighted.dat".
Proof. reflexivity. Qed.

Example key_last :
  key notebook_params 59
  = "Collated_Zha_2021_s17_AdiabaticMSW_NMO_59_icecube_events_smeared_weighted.dat".
Proof. reflexivity. Qed.

Example split_header :
  split "  Energy(GeV)   ibd nc_O16 " = ["Energy(GeV)"; "ibd"; "nc_O16"].
Proof. reflexivity. Qed.

Example split_blank : split "   " = [].
Proof. reflexivity. Qed.

Example aggregate_sample :
  aggregate notebook_params 60 sample_tables = inr (replicate 60 18%Q).
Proof. vm_compute. reflexivity. Qed.

Example aggregate_missing_key :
  aggregate notebook_params 60 (delete (key notebook_params 3) sample_tables)
  = inl (KeyError (key notebook_params 3)).
Proof. vm_compute. reflexivity. Qed.

Example factor_notebook :
  exists f, factor notebook_params = inr f /\ (f == 3)%Q.
Proof. eexists. split; reflexivity. Qed.

(** ** The time windows *)

Lemma Qnat_nonzero (n : nat) : (0 < n)%nat -> ~ (Qnat n == 0)%Q.
Proof.
  intros Hn. unfold Qnat, Qeq. simpl. lia.
Qed.

Lemma Qnat_S (n : nat) : (Qnat (n + 1) == Qnat n + 1)%Q.
Proof.
  unfold Qnat. rewrite Nat2Z.inj_add, inject_Z_plus. reflexivity.
Qed.

Lemma length_linspace (start stop : Q) (n : nat) :
  length (linspace start stop n) = n.
Proof.
  unfold linspace.
  destruct (0 <? n)%nat; [destruct (Qeq_bool _ _) |];
    rewrite !length_map, length_seq; reflexivity.
Qed.

Lemma linspace_lookup (start stop : Q) (n i : nat) :
  (i < n)%nat ->
  exists s, linspace start stop n !! i = Some s /\
            (s == start + Qnat i * (stop - start) / Qnat n)%Q.
Proof.
  intros Hi. unfold linspace.
  assert (Hn : ~ (Qnat n == 0)%Q) by (apply Qnat_nonzero; lia).
  destruct (Nat.ltb_spec 0 n) as [_ | Hle]; [| lia].
  destruct (Qeq_bool ((stop - start) / Qnat n) 0) eqn:Hstep.
  - eexists. split.
    + rewrite !list_lookup_fmap, lookup_seq_lt by assumption. reflexivity.
    + simpl. field. exact Hn.
  - eexists. split.
    + rewrite !list_lookup_fmap, lookup_seq_lt by assumption. reflexivity.
    + simpl. field. exact Hn.
Qed.

Section Windows.
Variable p : params.
Hypothesis bins_pos : (0 < window_bins p)%nat.

Lemma time_windows_ok :
  let ts := linspace (window_tstart p) (window_tend p) (window_bins p) in
  let te := map (fun t => t + bin_width p)%Q ts in
  time_windows p =
    inr {| tstart := ts; tend := te;
           tmid := zip_with (fun a b => (a + b) * (1 # 2))%Q ts te |}.
Proof.
  unfold time_windows, div_int.
  destruct (Nat.eqb_spec (window_bins p) 0) as [E | _]; [lia | reflexivity].
Qed.

(** The three boundaries of window [i], read off the arrays. *)
Lemma window_lookup (i : nat) :
  (i < window_bins p)%nat ->
  exists w s,
    time_windows p = inr w /\
    tstart w !! i = Some s /\
    tend w !! i = Some (s + bin_width p)%Q /\
    tmid w !! i = Some ((s + (s + bin_width p)) * (1 # 2))%Q /\
    (s == window_tstart p
          + Qnat i * (window_tend p - window_tstart p) / Qnat (window_bins p))%Q.
Proof.
  intros Hi.
  destruct (linspace_lookup (window_tstart p) (window_tend p) _ _ Hi)
    as (s & Hs & Heq).
  eexists; exists s. split; [apply time_windows_ok |]. simpl.
  assert (Hte : map (fun t => t + bin_width p)%Q
                  (linspace (window_tstart p) (window_tend p) (window_bins p))
                  !! i = Some (s + bin_width p)%Q).
  { rewrite list_lookup_fmap, Hs. reflexivity. }
  split_and!; try assumption.
  rewrite lookup_zip_with, Hs. simpl. rewrite Hte. reflexivity.
Qed.

Lemma windows_lengths :
  exists w, time_windows p = inr w /\
            length (tstart w) = window_bins p /\
            length (tend w) = window_bins p /\
            length (tmid w) = window_bins p.
Proof.
  eexists. split; [apply time_windows_ok |]. simpl.
  rewrite length_zip_with, !length_map, !length_linspace.
  split_and!; lia.
Qed.
End Windows.

Lemma time_windows_length (p : params) (w : windows) :
  time_windows p = inr w ->
  length (tstart w) = window_bins p /\
  length (tend w) = window_bins p /\
  length (tmid w) = window_bins p.
Proof.
  unfold time_windows, div_int.
  destruct (window_bins p =? 0)%nat; [discriminate |].
  intros [= <-]. simpl.
  rewrite length_zip_with, !length_map, !length_linspace.
  split_and!; lia.
Qed.

(** C2: for every bin [i] below [window_bins] the notebook's arrays hold
    [tstart[i] = window_tstart + i * (window_tend - window_tstart) / window_bins],
    [tend[i] = tstart[i] + (window_tend - window_tstart) / window_bins] and
    [tmid[i] = (tstart[i] + tend[i]) / 2], over the rationals. *)
Theorem time_window_boundaries (p : params) (i : nat) :
  (i < window_bins p)%nat ->
  exists w s e m,
    time_windows p = inr w /\
    tstart w !! i = Some s /\ tend w !! i = Some e /\ tmid w !! i = Some m /\
    (s == window_tstart p
          + Qnat i * (window_tend p - window_tstart p) / Qnat (window_bins p))%Q /\
    (e == s + (window_tend p - window_tstart p) / Qnat (window_bins p))%Q /\
    (m == (s + e) / 2)%Q.
Proof.
  intros Hi.
  destruct (window_lookup p ltac:(lia) i Hi) as (w & s & Hw & Hs & He & Hm & Heq).
  exists w, s, (s + bin_width p)%Q, ((s + (s + bin_width p)) * (1 # 2))%Q.
  split_and!; try assumption.
  - reflexivity.
  - field.
Qed.

Lemma time_window_boundaries_witness :
  (59 < window_bins notebook_params)%nat /\
  exists w s e m,
    time_windows notebook_params = inr w /\
    tstart w !! 59%nat = Some s /\ tend w !! 59%nat = Some e /\
    tmid w !! 59%nat = Some m /\
    (s == (742 # 1000) + Qnat 59 * ((762 # 1000) - (742 # 1000)) / Qnat 60)%Q /\
    (e == s + ((762 # 1000) - (742 # 1000)) / Qnat 60)%Q /\
    (m == (s + e) / 2)%Q.
Proof.
  split; [simpl; lia |].
  apply (time_window_boundaries notebook_params 59). simpl. lia.
Defined.

(** C9: the windows tile [[window_tstart, window_tend)]: the first starts at
    [window_tstart], each ends where the next starts, the last ends at
    [window_tend], and all have the width
    [(window_tend - window_tstart) / window_bins], over the rationals. *)
Theorem windows_partition (p : params) :
  (0 < window_bins p)%nat ->
  exists w,
    time_windows p = inr w /\
    (exists s0, tstart w !! 0%nat = Some s0 /\ (s0 == window_tstart p)%Q) /\
    (forall i, (i + 1 < window_bins p)%nat ->
       exists e s, tend w !! i = Some e /\ tstart w !! (i + 1)%nat = Some s /\
                   (e == s)%Q) /\
    (exists e, tend w !! (window_bins p - 1)%nat = Some e /\
               (e == window_tend p)%Q) /\
    (forall i, (i < window_bins p)%nat ->
       exists s e, tstart w !! i = Some s /\ tend w !! i = Some e /\
                   (e - s == (window_tend p - window_tstart p)
                             / Qnat (window_bins p))%Q).
Proof.
  intros Hpos.
  pose proof (Qnat_nonzero _ Hpos) as Hn.
  eexists. split; [apply (time_windows_ok p Hpos) |].
  assert (Hat : forall i, (i < window_bins p)%nat ->
    exists s,
      linspace (window_tstart p) (window_tend p) (window_bins p) !! i = Some s /\
      map (fun t => t + bin_width p)%Q
        (linspace (window_tstart p) (window_tend p) (window_bins p)) !! i
        = Some (s + bin_width p)%Q /\
      (s == window_tstart p
            + Qnat i * (window_tend p - window_tstart p) / Qnat (window_bins p))%Q).
  { intros i Hi.
    destruct (linspace_lookup (window_tstart p) (window_tend p) _ _ Hi)
      as (s & Hs & Heq).
    exists s. rewrite list_lookup_fmap, Hs. auto. }
  simpl. split_and!.
  - destruct (Hat 0%nat Hpos) as (s & Hs & _ & Heq).
    exists s. split; [assumption |]. rewrite Heq. unfold Qnat. simpl. field.
    exact Hn.
  - intros i Hi.
    destruct (Hat i ltac:(lia)) as (s & _ & He & Heq).
    destruct (Hat (i + 1)%nat Hi) as (s' & Hs' & _ & Heq').
    exists (s + bin_width p)%Q, s'. split_and!; try assumption.
    rewrite Heq, Heq', Qnat_S. unfold bin_width. field. exact Hn.
  - destruct (Hat (window_bins p - 1)%nat ltac:(lia)) as (s & _ & He & Heq).
    exists (s + bin_width p)%Q. split; [assumption |].
    assert (Hlast : (Qnat (window_bins p - 1) == Qnat (window_bins p) - 1)%Q).
    { pose proof (Qnat_S (window_bins p - 1)) as HS.
      replace (window_bins p - 1 + 1)%nat with (window_bins p) in HS by lia.
      rewrite HS. ring. }
    rewrite Heq, Hlast. unfold bin_width. field. exact Hn.
  - intros i Hi.
    destruct (Hat i Hi) as (s & Hs & He & _).
    exists s, (s + bin_width p)%Q. split_and!; try assumption.
    unfold bin_width. ring.
Qed.

Lemma windows_partition_witness :
  (0 < window_bins notebook_params)%nat /\
  exists w,
    time_windows notebook_params = inr w /\
    (exists s0, tstart w !! 0%nat = Some s0 /\ (s0 == 742 # 1000)%Q) /\
    (forall i, (i + 1 < 60)%nat ->
       exists e s, tend w !! i = Some e /\ tstart w !! (i + 1)%nat = Some s /\
                   (e == s)%Q) /\
    (exists e, tend w !! 59%nat = Some e /\ (e == 762 # 1000)%Q) /\
    (forall i, (i < 60)%nat ->
       exists s e, tstart w !! i = Some s /\ tend w !! i = Some e /\
                   (e - s == ((762 # 1000) - (742 # 1000)) / Qnat 60)%Q).
Proof.
  split; [simpl; lia |].
  apply (windows_partition notebook_params). simpl. lia.
Defined.

(** ** The keys *)

Lemma string_app_cons (c : ascii) (s t : string) :
  String c s +:+ t = String c (s +:+ t).
Proof. reflexivity. Qed.

Lemma string_app_empty_r (s : string) : s +:+ "" = s.
Proof.
  induction s as [| c s IH]; [reflexivity |].
  rewrite string_app_cons, IH. reflexivity.
Qed.

Lemma string_length_app (s t : string) :
  String.length (s +:+ t) = (String.length s + String.length t)%nat.
Proof.
  induction s as [| c s IH]; [reflexivity |].
  rewrite string_app_cons. simpl. rewrite IH. reflexivity.
Qed.

(** Two strings followed by the same text are equal when the results are. *)
Lemma string_app_inv_tail (s1 s2 t : string) :
  s1 +:+ t = s2 +:+ t -> s1 = s2.
Proof.
  revert s2. induction s1 as [| c s1 IH]; intros [| c' s2] Heq.
  - reflexivity.
  - apply (f_equal String.length) in Heq.
    rewrite !string_length_app in Heq. simpl in Heq. lia.
  - apply (f_equal String.length) in Heq.
    rewrite !string_length_app in Heq. simpl in Heq. lia.
  - rewrite !string_app_cons in Heq.
    injection Heq as -> Heq. f_equal. apply IH, Heq.
Qed.

Lemma key_unfold (p : params) (i : nat) :
  key p i =
    "Collated_" +:+ outfile p +:+ "_" +:+ pretty i +:+ "_" +:+ detector p
      +:+ "_events_smeared_weighted.dat".
Proof.
  unfold key, fstring. cbn [foldr fpart_text].
  rewrite string_app_empty_r. reflexivity.
Qed.

Lemma key_inj (p : params) (i j : nat) : key p i = key p j -> i = j.
Proof.
  rewrite !key_unfold. intros Heq.
  apply (inj (String.append "Collated_")) in Heq.
  apply (inj (String.append (outfile p))) in Heq.
  apply (inj (String.append "_")) in Heq.
  apply string_app_inv_tail in Heq.
  apply (inj pretty) in Heq. exact Heq.
Qed.

(** C3: the key of bin [i] is
    ["Collated_" + outfile + "_" + str(i) + "_" + detector
     + "_events_smeared_weighted.dat"] with
    [outfile = modeltype + "_" + model + "_" + transformation], and distinct
    bins have distinct keys. *)
Theorem key_format (p : params) (i j : nat) :
  i <> j ->
  key p i =
    "Collated_" +:+ outfile p +:+ "_" +:+ pretty i +:+ "_" +:+ detector p
      +:+ "_events_smeared_weighted.dat" /\
  outfile p = modeltype p +:+ "_" +:+ model p +:+ "_" +:+ transformation p /\
  key p i <> key p j.
Proof.
  intros Hij. split_and!.
  - apply key_unfold.
  - reflexivity.
  - intros Heq. apply Hij, (key_inj p), Heq.
Qed.

Lemma key_format_witness :
  7%nat <> 8%nat /\
  key notebook_params 7 =
    "Collated_" +:+ outfile notebook_params +:+ "_" +:+ "7" +:+ "_"
      +:+ "icecube" +:+ "_events_smeared_weighted.dat" /\
  outfile notebook_params = "Zha_2021" +:+ "_" +:+ "s17" +:+ "_" +:+ "AdiabaticMSW_NMO" /\
  key notebook_params 7 <> key notebook_params 8.
Proof.
  split; [lia |]. apply (key_format notebook_params 7 8). lia.
Defined.

(** ** The aggregation loop *)

Section Aggregation.
Context {num : Type} `{!Numeric num}.
Variable p : params.
Variable tables : gmap string (table num).

Lemma for_each_cons {A} (x : A) (xs : list A) (body : A -> M num unit)
    (s : astate num) :
  for_each (x :: xs) body s =
    match body x s with
    | (s', inr _) => for_each xs body s'
    | (s', inl e) => (s', inl e)
    end.
Proof. reflexivity. Qed.

Lemma for_each_app {A} (xs ys : list A) (body : A -> M num unit)
    (s : astate num) :
  for_each (xs ++ ys) body s =
    match for_each xs body s with
    | (s', inr _) => for_each ys body s'
    | (s', inl e) => (s', inl e)
    end.
Proof.
  revert s. induction xs as [| x xs IH]; intros s; [reflexivity |].
  rewrite <- app_comm_cons, !for_each_cons.
  destruct (body x s) as [s1 [e | []]]; [reflexivity | apply IH].
Qed.

(** One execution of [nevents[i] += sum(tables[key]['data'][j])]. *)
Lemma add_column_ok (k : string) (i j : nat) (s : astate num)
    (cur : num) (t : table num) (col : list num) :
  nevents s !! i = Some cur ->
  tables !! k = Some t ->
  data t !! j = Some col ->
  add_column tables k i j s =
    ({| nevents := <[i := add cur (pysum col)]> (nevents s);
        reads := reads s ++ [k] |}, inr tt).
Proof.
  intros Hcur Ht Hcol.
  unfold add_column, bind, nevents_getitem, tables_getitem, data_getitem,
    nevents_setitem.
  rewrite Hcur, Ht. simpl. rewrite Hcol.
  apply lookup_lt_Some in Hcur.
  destruct (Nat.ltb_spec i (length (nevents s))); [reflexivity | lia].
Qed.

Lemma add_column_index_error (k : string) (i j : nat) (s : astate num)
    (cur : num) (t : table num) :
  nevents s !! i = Some cur ->
  tables !! k = Some t ->
  data t !! j = None ->
  add_column tables k i j s =
    ({| nevents := nevents s; reads := reads s ++ [k] |},
     inl (IndexError j (length (data t)))).
Proof.
  intros Hcur Ht Hcol.
  unfold add_column, bind, nevents_getitem, tables_getitem, data_getitem.
  rewrite Hcur, Ht. simpl. rewrite Hcol. reflexivity.
Qed.

(** The inner loop over columns that are all there. *)
Lemma columns_loop_ok (k : string) (i : nat) (t : table num)
    (js : list nat) (cols : list (list num)) :
  tables !! k = Some t ->
  Forall2 (fun j col => data t !! j = Some col) js cols ->
  forall (s : astate num) (cur : num),
    nevents s !! i = Some cur ->
    for_each js (add_column tables k i) s =
      ({| nevents :=
            <[i := fold_left (fun acc col => add acc (pysum col)) cols cur]>
              (nevents s);
          reads := reads s ++ replicate (length js) k |}, inr tt).
Proof.
  intros Ht Hcols. induction Hcols as [| j col js cols Hj _ IH]; intros s cur Hcur.
  - simpl. rewrite list_insert_id by assumption. rewrite app_nil_r.
    destruct s; reflexivity.
  - rewrite for_each_cons, (add_column_ok _ _ _ _ cur t col) by assumption.
    rewrite (IH _ (add cur (pysum col))).
    + simpl. rewrite list_insert_insert_eq, <- app_assoc. reflexivity.
    + simpl. apply list_lookup_insert_eq. eapply lookup_lt_Some, Hcur.
Qed.

Lemma fold_left_pysum (cols : list (list num)) (cur : num) :
  fold_left (fun acc col => add acc (pysum col)) cols cur =
    fold_left add (map pysum cols) cur.
Proof.
  revert cur. induction cols as [| col cols IH]; intros cur; simpl;
    [reflexivity | apply IH].
Qed.

(** The columns [a], .., [a + m - 1] of an array that has them. *)
Lemma seq_columns {A} (l : list A) (a m : nat) :
  (m = 0 \/ a + m <= length l)%nat ->
  Forall2 (fun j col => l !! j = Some col) (seq a m) (take m (drop a l)).
Proof.
  intros Hlen. apply Forall2_same_length_lookup_2.
  - rewrite length_seq, length_take, length_drop. lia.
  - intros i j col Hj Hcol.
    apply lookup_seq in Hj as [-> Hi].
    rewrite lookup_take_lt, lookup_drop in Hcol by assumption. exact Hcol.
Qed.
(** One bin whose table has every column its header names. *)
Lemma bin_body_ok (i : nat) (s : astate num) (cur : num) (t : table num) :
  nevents s !! i = Some cur ->
  tables !! key p i = Some t ->
  shape_ok t = true ->
  bin_body p tables i s =
    ({| nevents := <[i := fold_left add (column_sums t) cur]> (nevents s);
        reads := reads s
                 ++ replicate (S (length (split (header t)) - 1)) (key p i) |},
     inr tt).
Proof.
  intros Hcur Ht Hshape.
  unfold bin_body, bind, tables_getitem. rewrite Ht.
  unfold shape_ok in Hshape.
  apply orb_true_iff in Hshape.
  rewrite !Nat.leb_le in Hshape.
  erewrite (columns_loop_ok _ i t _ _ Ht); [| apply seq_columns; lia | exact Hcur].
  unfold range. simpl. rewrite fold_left_pysum, length_seq, <- app_assoc.
  reflexivity.
Qed.

(** One bin whose key is not in the mapping. *)
Lemma bin_body_missing (i : nat) (s : astate num) :
  tables !! key p i = None ->
  bin_body p tables i s =
    ({| nevents := nevents s; reads := reads s ++ [key p i] |},
     inl (KeyError (key p i))).
Proof.
  intros Ht. unfold bin_body, bind, tables_getitem. rewrite Ht. reflexivity.
Qed.

(** One bin whose header names a column that the data lacks. *)
Lemma bin_body_bad_shape (i : nat) (s : astate num) (cur : num) (t : table num) :
  nevents s !! i = Some cur ->
  tables !! key p i = Some t ->
  shape_ok t = false ->
  exists s',
    bin_body p tables i s =
      (s', inl (IndexError (Nat.max 1 (length (data t))) (length (data t)))).
Proof.
  intros Hcur Ht Hshape.
  unfold shape_ok in Hshape. apply orb_false_iff in Hshape.
  rewrite !Nat.leb_gt in Hshape. destruct Hshape as [Hn1 HnL].
  set (n := length (split (header t))) in *.
  set (L := length (data t)) in *.
  set (j := Nat.max 1 L).
  assert (Hsplit : range 1 n = seq 1 (j - 1) ++ j :: seq (S j) (n - 1 - j)).
  { unfold range.
    replace (n - 1)%nat with ((j - 1) + S (n - 1 - j))%nat by lia.
    rewrite seq_app. simpl.
    replace (1 + (j - 1))%nat with j by lia.
    repeat f_equal; lia. }
  unfold bin_body, bind, tables_getitem. rewrite Ht. fold n. rewrite Hsplit.
  rewrite for_each_app.
  erewrite (columns_loop_ok _ i t _ _ Ht);
    [| apply seq_columns; fold L; lia | exact Hcur].
  rewrite for_each_cons.
  erewrite (add_column_index_error _ _ _ _ _ t); [eexists; reflexivity | | exact Ht |].
  - simpl. apply list_lookup_insert_eq. eapply lookup_lt_Some, Hcur.
  - apply lookup_ge_None_2. fold L. lia.
Qed.

(** The outer loop over bins [a], .., [a + m - 1] that are all in order. *)
Lemma bins_loop_ok (m : nat) : forall (a : nat) (s : astate num),
  (a + m <= length (nevents s))%nat ->
  (forall i, (a <= i < a + m)%nat -> bin_ok p tables i = true) ->
  exists s',
    for_each (seq a m) (bin_body p tables) s = (s', inr tt) /\
    length (nevents s') = length (nevents s) /\
    (forall i, (a <= i < a + m)%nat ->
       exists t cur, tables !! key p i = Some t /\ nevents s !! i = Some cur /\
                     nevents s' !! i = Some (fold_left add (column_sums t) cur)) /\
    (forall i, ~ (a <= i < a + m)%nat -> nevents s' !! i = nevents s !! i) /\
    (forall k, k ∈ reads s' <->
               k ∈ reads s \/ exists i, (a <= i < a + m)%nat /\ k = key p i).
Proof.
  induction m as [| m IH]; intros a s Hlen Hok.
  - exists s. split_and!; try reflexivity; try (intros; lia).
    intros k. split; [auto |]. intros [H | (i & Hi & _)]; [exact H | lia].
  - pose proof (Hok a ltac:(lia)) as Ha. unfold bin_ok in Ha.
    destruct (tables !! key p a) as [t |] eqn:Ht; [| discriminate].
    destruct (lookup_lt_is_Some_2 (nevents s) a ltac:(lia)) as [cur Hcur].
    simpl seq. rewrite for_each_cons, (bin_body_ok a s cur t Hcur Ht Ha).
    set (s1 := {| nevents := <[a := fold_left add (column_sums t) cur]> (nevents s);
                  reads := reads s
                           ++ replicate (S (length (split (header t)) - 1)) (key p a) |}).
    destruct (IH (S a) s1) as (s' & Hrun & Hl & Hin & Hout & Hreads).
    { simpl. rewrite length_insert. lia. }
    { intros i Hi. apply Hok. lia. }
    exists s'. split; [exact Hrun |]. simpl in Hl. rewrite length_insert in Hl.
    split_and!.
    + exact Hl.
    + intros i Hi. destruct (decide (i = a)) as [-> | Hne].
      * exists t, cur. split_and!; try assumption.
        rewrite Hout by lia. simpl. apply list_lookup_insert_eq.
        eapply lookup_lt_Some, Hcur.
      * destruct (Hin i ltac:(lia)) as (t' & cur' & Ht' & Hcur' & Hres).
        exists t', cur'. split_and!; try assumption.
        simpl in Hcur'. rewrite list_lookup_insert_ne in Hcur' by lia.
        exact Hcur'.
    + intros i Hi. rewrite Hout by lia. simpl.
      apply list_lookup_insert_ne. lia.
    + intros k. rewrite Hreads. unfold s1. cbn [reads].
      rewrite elem_of_app, elem_of_replicate. split.
      * intros [[H | [-> _]] | (i & Hi & ->)]; [auto | right | right].
        -- exists a. split; [lia | reflexivity].
        -- exists i. split; [lia | reflexivity].
      * intros [H | (i & Hi & ->)]; [auto |].
        destruct (decide (i = a)) as [-> | Hne]; [left; right; auto |].
        right. exists i. split; [lia | reflexivity].
Qed.

(** A loop that ran to its end found every bin in order. *)
Lemma bins_loop_inv (m : nat) : forall (a : nat) (s s' : astate num),
  (a + m <= length (nevents s))%nat ->
  for_each (seq a m) (bin_body p tables) s = (s', inr tt) ->
  forall i, (a <= i < a + m)%nat -> bin_ok p tables i = true.
Proof.
  induction m as [| m IH]; intros a s s' Hlen Hrun i Hi; [lia |].
  destruct (lookup_lt_is_Some_2 (nevents s) a ltac:(lia)) as [cur Hcur].
  simpl seq in Hrun. rewrite for_each_cons in Hrun.
  destruct (tables !! key p a) as [t |] eqn:Ht.
  - destruct (shape_ok t) eqn:Hshape.
    + rewrite (bin_body_ok a s cur t Hcur Ht Hshape) in Hrun.
      destruct (decide (i = a)) as [-> | Hne].
      * unfold bin_ok. rewrite Ht. exact Hshape.
      * eapply (IH (S a)); [| exact Hrun | lia].
        simpl. rewrite length_insert. lia.
    + destruct (bin_body_bad_shape a s cur t Hcur Ht Hshape) as (s1 & Hbad).
      rewrite Hbad in Hrun. discriminate.
  - rewrite (bin_body_missing a s Ht) in Hrun. discriminate.
Qed.

Lemma zeros_lookup (n i : nat) :
  (i < n)%nat -> nevents (zeros (num := num) n) !! i = Some zero.
Proof.
  intros Hi. simpl. apply lookup_replicate_2, Hi.
Qed.

(** The whole loop, when every bin is in order. *)
Lemma aggregate_ok (n : nat) :
  (forall i, (i < n)%nat -> bin_ok p tables i = true) ->
  exists nev,
    aggregate p n tables = inr nev /\
    length nev = n /\
    (forall i, (i < n)%nat ->
       exists t, tables !! key p i = Some t /\
                 nev !! i = Some (nevents_spec t)) /\
    (forall k, k ∈ keys_read p n tables <->
               exists i, (i < n)%nat /\ k = key p i).
Proof.
  intros Hok.
  destruct (bins_loop_ok n 0 (zeros n)) as (s' & Hrun & Hl & Hin & _ & Hreads).
  { simpl. rewrite length_replicate. lia. }
  { intros i Hi. apply Hok. lia. }
  unfold aggregate, keys_read, aggregation_loop, range.
  rewrite Nat.sub_0_r, Hrun. exists (nevents s'). split_and!.
  - reflexivity.
  - rewrite Hl. simpl. apply length_replicate.
  - intros i Hi. destruct (Hin i ltac:(lia)) as (t & cur & Ht & Hcur & Hres).
    exists t. split; [exact Ht |].
    rewrite zeros_lookup in Hcur by exact Hi. injection Hcur as <-.
    exact Hres.
  - intros k. simpl. rewrite Hreads. simpl. rewrite elem_of_nil. split.
    + intros [[] | (i & Hi & ->)]. exists i. split; [lia | reflexivity].
    + intros (i & Hi & ->). right. exists i. split; [lia | reflexivity].
Qed.

Lemma aggregate_inv (n : nat) (nev : list num) :
  aggregate p n tables = inr nev ->
  forall i, (i < n)%nat -> bin_ok p tables i = true.
Proof.
  unfold aggregate, aggregation_loop, range. rewrite Nat.sub_0_r.
  destruct (for_each (seq 0 n) (bin_body p tables) (zeros n))
    as [s' [e | []]] eqn:Hrun; [discriminate |].
  intros _ i Hi. eapply (bins_loop_inv n 0 (zeros n) s'); [| exact Hrun | lia].
  simpl. rewrite length_replicate. lia.
Qed.

(** The loop stops at the first bin that is not in order. *)
Lemma aggregation_loop_stops (n i : nat) :
  (i < n)%nat ->
  (forall i', (i' < i)%nat -> bin_ok p tables i' = true) ->
  exists s1,
    (forall k, k ∈ reads s1 <-> exists i', (i' < i)%nat /\ k = key p i') /\
    is_Some (nevents s1 !! i) /\
    aggregation_loop p n tables =
      match bin_body p tables i s1 with
      | (s', inr _) => for_each (seq (S i) (n - S i)) (bin_body p tables) s'
      | (s', inl e) => (s', inl e)
      end.
Proof.
  intros Hi Hok.
  destruct (bins_loop_ok i 0 (zeros n)) as (s1 & Hrun & Hl & _ & _ & Hreads).
  { simpl. rewrite length_replicate. lia. }
  { intros i' Hi'. apply Hok. lia. }
  exists s1. split_and!.
  - intros k. rewrite Hreads. simpl. rewrite elem_of_nil. split.
    + intros [[] | (i' & Hi' & ->)]. exists i'. split; [lia | reflexivity].
    + intros (i' & Hi' & ->). right. exists i'. split; [lia | reflexivity].
  - apply lookup_lt_is_Some_2. rewrite Hl. simpl. rewrite length_replicate. lia.
  - unfold aggregation_loop, range.
    replace (n - 0)%nat with (i + S (n - S i))%nat by lia.
    rewrite seq_app, for_each_app, Hrun. simpl seq. apply for_each_cons.
Qed.

Lemma aggregate_key_error (n i : nat) :
  (i < n)%nat ->
  (forall i', (i' < i)%nat -> bin_ok p tables i' = true) ->
  tables !! key p i = None ->
  aggregate p n tables = inl (KeyError (key p i)).
Proof.
  intros Hi Hok Ht.
  destruct (aggregation_loop_stops n i Hi Hok) as (s1 & _ & _ & Hloop).
  unfold aggregate. rewrite Hloop, (bin_body_missing i s1 Ht). reflexivity.
Qed.

Lemma aggregate_index_error (n i : nat) (t : table num) :
  (i < n)%nat ->
  (forall i', (i' < i)%nat -> bin_ok p tables i' = true) ->
  tables !! key p i = Some t ->
  shape_ok t = false ->
  aggregate p n tables =
    inl (IndexError (Nat.max 1 (length (data t))) (length (data t))).
Proof.
  intros Hi Hok Ht Hshape.
  destruct (aggregation_loop_stops n i Hi Hok) as (s1 & _ & [cur Hcur] & Hloop).
  destruct (bin_body_bad_shape i s1 cur t Hcur Ht Hshape) as (s' & Hbad).
  unfold aggregate. rewrite Hloop, Hbad. reflexivity.
Qed.
End Aggregation.

(** C1: after the loop, for every bin [i] below [window_bins], [nevents[i]]
    is the sum, over the columns [j = 1 .. len(header.split()) - 1] of the
    table stored under the key of bin [i], of the sum of column [j]; the
    array starts as all zeros. *)
Theorem nevents_is_column_sum {num : Type} `{!Numeric num} (p : params)
    (tables : gmap string (table num)) (w : windows) (nev : list num) (i : nat) :
  time_windows p = inr w ->
  aggregate p (length (tmid w)) tables = inr nev ->
  (i < window_bins p)%nat ->
  nevents (zeros (num := num) (length (tmid w))) !! i = Some zero /\
  exists (t : table num) (cols : list (list num)),
    tables !! key p i = Some t /\
    Forall2 (fun j col => data t !! j = Some col)
      (range 1 (length (split (header t)))) cols /\
    nev !! i = Some (pysum (map pysum cols)).
Proof.
  intros Hw Hagg Hi.
  destruct (time_windows_length p w Hw) as (_ & _ & Hlen).
  rewrite Hlen in *.
  split; [apply zeros_lookup, Hi |].
  pose proof (aggregate_inv p tables _ _ Hagg) as Hok.
  destruct (aggregate_ok p tables _ Hok) as (nev' & Hagg' & _ & Hin & _).
  rewrite Hagg in Hagg'. injection Hagg' as <-.
  destruct (Hin i Hi) as (t & Ht & Hres).
  exists t, (take (length (split (header t)) - 1) (drop 1 (data t))).
  split_and!; [exact Ht | | exact Hres].
  specialize (Hok i Hi). unfold bin_ok in Hok. rewrite Ht in Hok.
  unfold shape_ok in Hok. apply orb_true_iff in Hok.
  rewrite !Nat.leb_le in Hok.
  apply seq_columns. lia.
Qed.

Lemma nevents_is_column_sum_witness :
  exists (w : windows) (nev : list Q),
    time_windows notebook_params = inr w /\
    aggregate notebook_params (length (tmid w)) sample_tables = inr nev /\
    (3 < window_bins notebook_params)%nat /\
    nevents (zeros (num := Q) (length (tmid w))) !! 3%nat = Some 0%Q /\
    exists (t : table Q) (cols : list (list Q)),
      sample_tables !! key notebook_params 3 = Some t /\
      Forall2 (fun j col => data t !! j = Some col)
        (range 1 (length (split (header t)))) cols /\
      nev !! 3%nat = Some (pysum (map pysum cols)).
Proof.
  assert (Hw : exists w, time_windows notebook_params = inr w).
  { eexists. reflexivity. }
  destruct Hw as [w Hw].
  assert (Hagg : aggregate notebook_params (length (tmid w)) sample_tables
                 = inr (replicate 60 18%Q)).
  { destruct (time_windows_length _ _ Hw) as (_ & _ & ->).
    vm_compute. reflexivity. }
  exists w, (replicate 60 18%Q).
  split; [exact Hw |]. split; [exact Hagg |]. split; [simpl; lia |].
  apply (nevents_is_column_sum notebook_params sample_tables w _ 3 Hw Hagg).
  simpl. lia.
Defined.

Lemma bin_ok_spec {num : Type} (p : params) (tables : gmap string (table num))
    (i : nat) :
  bin_ok p tables i = true <->
  exists t, tables !! key p i = Some t /\
            (length (split (header t)) <= 1
             \/ length (split (header t)) <= length (data t))%nat.
Proof.
  unfold bin_ok, shape_ok. destruct (tables !! key p i) as [t |].
  - rewrite orb_true_iff, !Nat.leb_le. split.
    + intros H. exists t. auto.
    + intros (t' & [= <-] & H). exact H.
  - split; [discriminate | intros (t & [=] & _)].
Qed.

(** C7, as the code has it: the loop indexes the mapping without checking
    it. A mapping that lacks the key of some bin makes the loop fail, and
    the failure is the [KeyError] of that key when every earlier bin has
    its key and a table with all the columns its header names; the loop
    runs to its end exactly when every bin has its key and such a table. *)
Theorem aggregation_unvalidated {num : Type} `{!Numeric num} (p : params)
    (tables : gmap string (table num)) (w : windows) :
  time_windows p = inr w ->
  (forall i, (i < window_bins p)%nat -> tables !! key p i = None ->
     exists e, aggregate p (length (tmid w)) tables = inl e) /\
  (forall i, (i < window_bins p)%nat ->
     (forall i', (i' < i)%nat ->
        exists t, tables !! key p i' = Some t /\
                  (length (split (header t)) <= 1
                   \/ length (split (header t)) <= length (data t))%nat) ->
     tables !! key p i = None ->
     aggregate p (length (tmid w)) tables = inl (KeyError (key p i))) /\
  ((exists nev, aggregate p (length (tmid w)) tables = inr nev) <->
   (forall i, (i < window_bins p)%nat ->
      exists t, tables !! key p i = Some t /\
                (length (split (header t)) <= 1
                 \/ length (split (header t)) <= length (data t))%nat)).
Proof.
  intros Hw. destruct (time_windows_length p w Hw) as (_ & _ & ->).
  split_and!.
  - intros i Hi Ht.
    destruct (aggregate p (window_bins p) tables) as [e | nev] eqn:Hagg;
      [eauto |].
    pose proof (aggregate_inv p tables _ _ Hagg i Hi) as Hok.
    unfold bin_ok in Hok. rewrite Ht in Hok. discriminate.
  - intros i Hi Hbefore Ht. apply aggregate_key_error; try assumption.
    intros i' Hi'. apply bin_ok_spec, Hbefore, Hi'.
  - split.
    + intros [nev Hagg] i Hi.
      apply bin_ok_spec, (aggregate_inv p tables _ _ Hagg i Hi).
    + intros Hall. destruct (aggregate_ok p tables (window_bins p)) as (nev & Hagg & _).
      * intros i Hi. apply bin_ok_spec, Hall, Hi.
      * eauto.
Qed.

Lemma short_tables_keys (i : nat) :
  (i < 60)%nat -> is_Some (short_tables !! key notebook_params i).
Proof.
  intros Hi.
  assert (H : forallb (fun i => bool_decide
                         (is_Some (short_tables !! key notebook_params i)))
                (seq 0 60) = true)
    by (vm_compute; reflexivity).
  rewrite forallb_forall in H.
  eapply bool_decide_eq_true_1, H, in_seq. lia.
Qed.

Lemma sample_tables_in_order (i : nat) :
  (i < 60)%nat ->
  exists t, sample_tables !! key notebook_params i = Some t /\
            (length (split (header t)) <= 1
             \/ length (split (header t)) <= length (data t))%nat.
Proof.
  intros Hi. apply bin_ok_spec.
  assert (H : forallb (bin_ok notebook_params sample_tables) (seq 0 60) = true)
    by (vm_compute; reflexivity).
  rewrite forallb_forall in H. apply H, in_seq. lia.
Qed.

Lemma gappy_tables_before (i' : nat) :
  (i' < 3)%nat ->
  exists t, gappy_tables !! key notebook_params i' = Some t /\
            (length (split (header t)) <= 1
             \/ length (split (header t)) <= length (data t))%nat.
Proof.
  intros Hi'. destruct (sample_tables_in_order i' ltac:(lia)) as (t & Ht & Hshape).
  exists t. split; [| exact Hshape].
  unfold gappy_tables. rewrite lookup_delete_ne; [exact Ht |].
  intros Heq. apply key_inj in Heq. lia.
Qed.

(** The theorem at a mapping that lacks the key of bin 3, whose earlier
    bins are in order: the loop raises the [KeyError] of that key and does
    not complete; at the full sample mapping it completes. *)
Lemma aggregation_unvalidated_witness :
  exists w : windows,
    time_windows notebook_params = inr w /\
    gappy_tables !! key notebook_params 3 = None /\
    aggregate notebook_params (length (tmid w)) gappy_tables
    = inl (KeyError (key notebook_params 3)) /\
    ~ (exists nev, aggregate notebook_params (length (tmid w)) gappy_tables
                   = inr nev) /\
    (exists nev, aggregate notebook_params (length (tmid w)) sample_tables
                 = inr nev) /\
    (forall i, (i < window_bins notebook_params)%nat ->
       gappy_tables !! key notebook_params i = None ->
       exists e, aggregate notebook_params (length (tmid w)) gappy_tables = inl e) /\
    (forall i, (i < window_bins notebook_params)%nat ->
       (forall i', (i' < i)%nat ->
          exists t, gappy_tables !! key notebook_params i' = Some t /\
                    (length (split (header t)) <= 1
                     \/ length (split (header t)) <= length (data t))%nat) ->
       gappy_tables !! key notebook_params i = None ->
       aggregate notebook_params (length (tmid w)) gappy_tables
       = inl (KeyError (key notebook_params i))) /\
    ((exists nev, aggregate notebook_params (length (tmid w)) gappy_tables
                  = inr nev) <->
     (forall i, (i < window_bins notebook_params)%nat ->
        exists t, gappy_tables !! key notebook_params i = Some t /\
                  (length (split (header t)) <= 1
                   \/ length (split (header t)) <= length (data t))%nat)).
Proof.
  assert (Hw : exists w, time_windows notebook_params = inr w).
  { eexists. reflexivity. }
  destruct Hw as [w Hw].
  pose proof (aggregation_unvalidated notebook_params gappy_tables w Hw)
    as (Hfail & Hkey & Hiff).
  pose proof (aggregation_unvalidated notebook_params sample_tables w Hw)
    as (_ & _ & Hiff').
  assert (H3 : gappy_tables !! key notebook_params 3 = None)
    by apply lookup_delete_eq.
  assert (Hbins : (3 < window_bins notebook_params)%nat) by (simpl; lia).
  exists w. split; [exact Hw |]. split; [exact H3 |]. split.
  { apply (Hkey 3 Hbins gappy_tables_before H3). }
  split.
  { intros [nev Hnev]. destruct (Hfail 3 Hbins H3) as [e He].
    rewrite He in Hnev. discriminate. }
  split.
  { apply Hiff'. intros i Hi. apply sample_tables_in_order. exact Hi. }
  split; [exact Hfail |]. split; [exact Hkey | exact Hiff].
Defined.

(** C7 as stated fails on both counts. [short_tables] holds the key of
    every bin, and the loop still stops with an exception, an [IndexError]
    at the first bin. [short_then_missing] lacks the key of bin 2, and the
    loop does not fail with a [KeyError] at that bin: it stops before, with
    the [IndexError] of the short table at bin 1. *)
Lemma aggregation_unvalidated_counterexample :
  exists w : windows,
    time_windows notebook_params = inr w /\
    (forall i, (i < window_bins notebook_params)%nat ->
       is_Some (short_tables !! key notebook_params i)) /\
    aggregate notebook_params (length (tmid w)) short_tables
    = inl (IndexError 1 1) /\
    (2 < window_bins notebook_params)%nat /\
    short_then_missing !! key notebook_params 2 = None /\
    aggregate notebook_params (length (tmid w)) short_then_missing
    = inl (IndexError 1 1) /\
    aggregate notebook_params (length (tmid w)) short_then_missing
    <> inl (KeyError (key notebook_params 2)).
Proof.
  assert (Hw : exists w, time_windows notebook_params = inr w).
  { eexists. reflexivity. }
  destruct Hw as [w Hw].
  destruct (time_windows_length _ _ Hw) as (_ & _ & Hlen).
  assert (H1 : aggregate notebook_params (length (tmid w)) short_tables
               = inl (IndexError 1 1)).
  { rewrite Hlen. vm_compute. reflexivity. }
  assert (H2 : aggregate notebook_params (length (tmid w)) short_then_missing
               = inl (IndexError 1 1)).
  { rewrite Hlen. vm_compute. reflexivity. }
  exists w. split_and!.
  - exact Hw.
  - apply short_tables_keys.
  - exact H1.
  - simpl. lia.
  - apply lookup_delete_eq.
  - exact H2.
  - rewrite H2. discriminate.
Qed.

Lemma keys_NoDup (p : params) (n : nat) : NoDup (map (key p) (seq 0 n)).
Proof.
  apply NoDup_fmap_2_strong; [| apply NoDup_seq].
  intros i j _ _. apply key_inj.
Qed.

(** C10: in the notebook [tstart], [tend], [tmid] and [nevents] all have
    length [window_bins = 60], and a loop that runs to its end has looked up
    the keys of the bins 0 to 59 and no other, one key for each bin. *)
Theorem lengths_agree {num : Type} `{!Numeric num}
    (tables : gmap string (table num)) (w : windows) (nev : list num) :
  time_windows notebook_params = inr w ->
  aggregate notebook_params (length (tmid w)) tables = inr nev ->
  length (tstart w) = 60%nat /\ length (tend w) = 60%nat /\
  length (tmid w) = 60%nat /\ window_bins notebook_params = 60%nat /\
  length (nevents (zeros (num := num) (length (tmid w)))) = 60%nat /\
  length nev = 60%nat /\
  (forall k, k ∈ keys_read notebook_params (length (tmid w)) tables <->
             exists i, (i < 60)%nat /\ k = key notebook_params i) /\
  NoDup (map (key notebook_params) (seq 0 60)).
Proof.
  intros Hw Hagg.
  destruct (time_windows_length _ _ Hw) as (Hts & Hte & Htm).
  change (window_bins notebook_params) with 60%nat in *.
  rewrite Htm in *.
  pose proof (aggregate_inv _ tables _ _ Hagg) as Hok.
  destruct (aggregate_ok _ tables _ Hok) as (nev' & Hagg' & Hlen & _ & Hreads).
  rewrite Hagg in Hagg'. injection Hagg' as <-.
  split_and!; try assumption; try reflexivity.
  apply keys_NoDup.
Qed.

Lemma lengths_agree_witness :
  exists (w : windows) (nev : list Q),
    time_windows notebook_params = inr w /\
    aggregate notebook_params (length (tmid w)) sample_tables = inr nev /\
    length (tstart w) = 60%nat /\ length (tend w) = 60%nat /\
    length (tmid w) = 60%nat /\ window_bins notebook_params = 60%nat /\
    length (nevents (zeros (num := Q) (length (tmid w)))) = 60%nat /\
    length nev = 60%nat /\
    (forall k, k ∈ keys_read notebook_params (length (tmid w)) sample_tables <->
               exists i, (i < 60)%nat /\ k = key notebook_params i) /\
    NoDup (map (key notebook_params) (seq 0 60)).
Proof.
  assert (Hw : exists w, time_windows notebook_params = inr w).
  { eexists. reflexivity. }
  destruct Hw as [w Hw].
  assert (Hagg : aggregate notebook_params (length (tmid w)) sample_tables
                 = inr (replicate 60 18%Q)).
  { destruct (time_windows_length _ _ Hw) as (_ & _ & ->).
    vm_compute. reflexivity. }
  exists w, (replicate 60 18%Q).
  split; [exact Hw |]. split; [exact Hagg |].
  apply (lengths_agree sample_tables w _ Hw Hagg).
Defined.

(** ** The conversion to counts per millisecond *)

Lemma factor_ok (p : params) :
  ~ (window_tend p == window_tstart p)%Q ->
  factor p =
    inr (Qnat (window_bins p) / (window_tend p - window_tstart p) / 1000)%Q.
Proof.
  intros Hne. unfold factor.
  destruct (Qeq_bool (window_tend p - window_tstart p) 0) eqn:Hd; [| reflexivity].
  apply Qeq_bool_iff in Hd. exfalso. apply Hne. lra.
Qed.

(** C5: [factor = window_bins / (window_tend - window_tstart) / 1000] is the
    reciprocal of a thousand times the bin width, so [nevents[i] * factor]
    is [nevents[i]] over the bin width in milliseconds, over the
    rationals. *)
Theorem factor_per_ms (p : params) (nev : list Q) (i : nat) (n : Q) :
  (0 < window_bins p)%nat ->
  ~ (window_tend p == window_tstart p)%Q ->
  nev !! i = Some n ->
  exists f : Q,
    factor p = inr f /\
    (f == Qnat (window_bins p) / (window_tend p - window_tstart p) / 1000)%Q /\
    (f == 1 / (1000 * bin_width p))%Q /\
    map (fun n => n * f)%Q nev !! i = Some (n * f)%Q /\
    (n * f == n / (bin_width p * 1000))%Q.
Proof.
  intros Hpos Hne Hn.
  pose proof (Qnat_nonzero _ Hpos) as Hbins.
  assert (Hd : ~ (window_tend p - window_tstart p == 0)%Q) by (intros H; apply Hne; lra).
  eexists. split; [apply factor_ok, Hne |]. split_and!.
  - reflexivity.
  - unfold bin_width. field. split; assumption.
  - rewrite list_lookup_fmap, Hn. reflexivity.
  - unfold bin_width. field. split; assumption.
Qed.

Lemma factor_per_ms_witness :
  (0 < window_bins notebook_params)%nat /\
  ~ (window_tend notebook_params == window_tstart notebook_params)%Q /\
  [18; 18]%Q !! 1%nat = Some 18%Q /\
  exists f : Q,
    factor notebook_params = inr f /\
    (f == Qnat 60 / ((762 # 1000) - (742 # 1000)) / 1000)%Q /\
    (f == 1 / (1000 * bin_width notebook_params))%Q /\
    map (fun n => n * f)%Q [18; 18]%Q !! 1%nat = Some (18 * f)%Q /\
    (18 * f == 18 / (bin_width notebook_params * 1000))%Q.
Proof.
  assert (H1 : (0 < window_bins notebook_params)%nat) by (simpl; lia).
  assert (H2 : ~ (window_tend notebook_params == window_tstart notebook_params)%Q)
    by (intros H; vm_compute in H; discriminate).
  split_and!; [exact H1 | exact H2 | reflexivity |].
  apply (factor_per_ms notebook_params [18; 18]%Q 1 18%Q H1 H2). reflexivity.
Defined.

(** ** Running the notebook *)

Lemma run_sbind {A B} (s : script A) (k : A -> script B) :
  forall (tk : toolkit) (h : list entry),
    run tk h (sbind s k) =
      match run tk h s with
      | (h', inr a) => run tk h' (k a)
      | (h', inl e) => (h', inl e)
      end.
Proof.
  induction s as [a | e | o s IH | X c k' IH]; intros tk h; simpl.
  - reflexivity.
  - reflexivity.
  - apply IH.
  - destruct (tk h X c) as [e | x]; [reflexivity | apply IH].
Qed.

(** A script has no handler: in the record of any run, a toolkit call that
    raised is the last entry, and what it raised is the outcome. *)
Lemma run_failure_last {A} (s : script A) :
  forall (tk : toolkit) (h h' : list entry) (r : exn + A),
    run tk h s = (h', r) ->
    exists t, h' = h ++ t /\
      forall t1 x t2 e,
        t = t1 ++ x :: t2 -> failure_of x = Some e -> t2 = [] /\ r = inl e.
Proof.
  induction s as [a | e | o s IH | X c k IH]; intros tk h h' r Hrun; simpl in Hrun.
  - injection Hrun as <- <-. exists []. rewrite app_nil_r. split; [reflexivity |].
    intros [| ? ?] x t2 e' Heq; discriminate.
  - injection Hrun as <- <-. exists []. rewrite app_nil_r. split; [reflexivity |].
    intros [| ? ?] x t2 e' Heq; discriminate.
  - destruct (IH _ _ _ _ Hrun) as (t & -> & Hlast).
    exists (Shown o :: t). rewrite <- app_assoc. split; [reflexivity |].
    intros [| y t1] x t2 e Heq Hx; simpl in Heq; injection Heq as <- Heq.
    + discriminate.
    + eapply Hlast; eassumption.
  - destruct (tk h X c) as [e | x0] eqn:Hans.
    + injection Hrun as <- <-. exists [Called c (inl e)]. split; [reflexivity |].
      intros [| y [| ? ?]] x t2 e' Heq Hx; simpl in Heq; try discriminate.
      injection Heq as <- <-. simpl in Hx. injection Hx as <-. auto.
    + destruct (IH _ _ _ _ _ Hrun) as (t & -> & Hlast).
      exists (Called c (inr x0) :: t). rewrite <- app_assoc. split; [reflexivity |].
      intros [| y t1] x t2 e Heq Hx; simpl in Heq; injection Heq as <- Heq.
      * discriminate.
      * eapply Hlast; eassumption.
Qed.

(** The run of the notebook, spelled out along the answers of the toolkit. *)
Lemma notebook_run (p : params) (tk : toolkit) (w : windows) :
  time_windows p = inr w ->
  let h1 := [Shown (print [Str "Preparing fluences ..."])] in
  let c1 := generate_fluence (modelfile p) (modeltype p) (transformation p)
              (distance p) (outfile p) (tstart w) (tend w) in
  run tk [] (notebook p) =
    match tk h1 _ c1 with
    | inl e => (h1 ++ [Called c1 (inl e)], inl e)
    | inr tarredfile =>
        let h2 := h1 ++ [Called c1 (inr tarredfile)]
                     ++ [Shown (print [Str "Running SNOwGLoBES ..."])] in
        let c2 := simulate (SNOwGLoBES_path p) tarredfile (detector p) in
        match tk h2 _ c2 with
        | inl e => (h2 ++ [Called c2 (inl e)], inl e)
        | inr u =>
            let h3 := h2 ++ [Called c2 (inr u)]
                         ++ [Shown (print [Str "Collating results ..."])] in
            let c3 := collate (SNOwGLoBES_path p) tarredfile true in
            match tk h3 _ c3 with
            | inl e => (h3 ++ [Called c3 (inl e)], inl e)
            | inr tables =>
                let h4 := h3 ++ [Called c3 (inr tables)] in
                match aggregate p (length (tmid w)) tables with
                | inl e => (h4, inl e)
                | inr nev =>
                    match factor p with
                    | inl e => (h4, inl e)
                    | inr f =>
                        (h4 ++ [Shown (plt_plot
                                         (map (fun t => t - (742 # 1000))%Q (tmid w))
                                         (map (fun n => n * f)%Q nev));
                                Shown (plt_xlabel "$t-t_{2c}$ [s]");
                                Shown (plt_ylabel "Counts [ms$^{-1}$]");
                                Shown plt_show;
                                Shown (print [Str "Total Events:"; Num (pysum nev)])],
                         inr tt)
                    end
                end
            end
        end
    end.
Proof.
  intros Hw h1 c1. subst h1 c1.
  unfold notebook, cell_windows. rewrite Hw.
  unfold cell_toolkit, cell_plot, emit, invoke.
  cbn [lift sbind run app].
  destruct (tk _ _ _) as [e | tarredfile]; [reflexivity |].
  destruct (tk _ _ _) as [e | u]; [reflexivity |].
  destruct (tk _ _ _) as [e | tables]; [reflexivity |].
  destruct (aggregate p (length (tmid w)) tables) as [e | nev];
    cbn [lift sbind run app]; [reflexivity |].
  destruct (factor p) as [e | f]; cbn [lift sbind run app]; reflexivity.
Qed.

Lemma notebook_run_no_windows (p : params) (tk : toolkit) (e : exn) :
  time_windows p = inl e -> run tk [] (notebook p) = ([], inl e).
Proof.
  intros Hw. unfold notebook, cell_windows. rewrite Hw. reflexivity.
Qed.

(** Splits a hypothesis [Hrun] about the run of the notebook along the
    answers of the toolkit, the aggregation and [factor]. *)
Ltac notebook_cases Hrun Hw :=
  rewrite (notebook_run _ _ _ Hw) in Hrun; cbv zeta in Hrun;
  repeat match type of Hrun with
    | context [match ?x with inl _ => _ | inr _ => _ end] =>
        let E := fresh "Hans" in destruct x eqn:E
    end.

(** C6: no toolkit call is handled. In every run, a call of
    [generate_fluence], [simulate] or [collate] that raises is the last
    entry of the record, and the notebook ends with the exception it
    raised. *)
Theorem toolkit_errors_propagate (p : params) (tk : toolkit)
    (t1 t2 : list entry) (x : entry) (r : exn + unit) (e : exn) :
  run tk [] (notebook p) = (t1 ++ x :: t2, r) ->
  failure_of x = Some e ->
  t2 = [] /\ r = inl e.
Proof.
  intros Hrun Hx.
  destruct (run_failure_last (notebook p) tk [] _ _ Hrun) as (t & Ht & Hlast).
  simpl in Ht. eapply Hlast; [symmetry; exact Ht | exact Hx].
Qed.

Lemma toolkit_errors_propagate_witness :
  exists (t1 : list entry) (tarredfile : string),
    run failing_toolkit [] (notebook notebook_params)
    = (t1 ++ [Called (simulate "/path/to/snowglobes/" tarredfile "icecube")
                (inl (ToolkitError "SNOwGLoBES not found"))],
       inl (ToolkitError "SNOwGLoBES not found")) /\
    stages t1 = [FluenceGenerator] /\
    failure_of (Called (simulate "/path/to/snowglobes/" tarredfile "icecube")
                  (inl (ToolkitError "SNOwGLoBES not found")))
    = Some (ToolkitError "SNOwGLoBES not found") /\
    ([] : list entry) = [] /\
    (inl (ToolkitError "SNOwGLoBES not found") : exn + unit)
    = inl (ToolkitError "SNOwGLoBES not found").
Proof.
  assert (Hw : exists w, time_windows notebook_params = inr w).
  { eexists. reflexivity. }
  destruct Hw as [w Hw].
  pose proof (notebook_run notebook_params failing_toolkit w Hw) as Hrun.
  cbv zeta in Hrun. cbn [failing_toolkit] in Hrun.
  eexists [_; _; _], _.
  split; [exact Hrun |]. split; [reflexivity |]. split; [reflexivity |].
  apply (toolkit_errors_propagate notebook_params failing_toolkit _ _ _ _ _ Hrun).
  reflexivity.
Defined.

(** C8: [generate_fluence] is called exactly once, with the model file, the
    model type, the transformation, the distance, the output name and the
    arrays [tstart] and [tend], in this order; the path it returns is the
    one every later call of the simulator and the collator is given. *)
Theorem generate_fluence_once (p : params) (tk : toolkit) (w : windows)
    (h : list entry) (r : exn + unit) :
  time_windows p = inr w ->
  run tk [] (notebook p) = (h, r) ->
  exists (res : exn + string) (rest : list entry),
    h = Shown (print [Str "Preparing fluences ..."])
        :: Called (generate_fluence (modelfile p) (modeltype p) (transformation p)
                     (distance p) (outfile p) (tstart w) (tend w)) res
        :: rest /\
    length (filter (fun s => s = FluenceGenerator) (stages h)) = 1%nat /\
    (forall x tarball,
       x ∈ rest -> tarball_of x = Some tarball -> res = inr tarball).
Proof.
  intros Hw Hrun.
  notebook_cases Hrun Hw; injection Hrun as <- <-;
    eexists _, _; (split_and!; [reflexivity | reflexivity |]);
    intros x tarball Hx Htar;
    repeat (apply elem_of_cons in Hx as [-> | Hx]);
    try (apply elem_of_nil in Hx; destruct Hx);
    simpl in Htar; try discriminate; injection Htar as <-; reflexivity.
Qed.

Lemma generate_fluence_once_witness :
  exists (w : windows) (h : list entry),
    time_windows notebook_params = inr w /\
    run sample_toolkit [] (notebook notebook_params) = (h, inr tt) /\
    exists (res : exn + string) (rest : list entry),
      h = Shown (print [Str "Preparing fluences ..."])
          :: Called (generate_fluence "/path/to/snewpy/models//Zha_2021/s17.dat"
                       "Zha_2021" "AdiabaticMSW_NMO" 10
                       "Zha_2021_s17_AdiabaticMSW_NMO" (tstart w) (tend w)) res
          :: rest /\
      length (filter (fun s => s = FluenceGenerator) (stages h)) = 1%nat /\
      (forall x tarball,
         x ∈ rest -> tarball_of x = Some tarball -> res = inr tarball).
Proof.
  assert (Hw : exists w, time_windows notebook_params = inr w).
  { eexists. reflexivity. }
  destruct Hw as [w Hw].
  assert (Hr : (run sample_toolkit [] (notebook notebook_params)).2 = inr tt)
    by (vm_compute; reflexivity).
  destruct (run sample_toolkit [] (notebook notebook_params)) as [h r] eqn:Hrun.
  simpl in Hr. subst r.
  exists w, h. split; [exact Hw |]. split; [reflexivity |].
  apply (generate_fluence_once notebook_params sample_toolkit w h _ Hw Hrun).
Defined.

(** * Further properties *)

(** ** What the aggregation loop depends on *)

Section AggregationDependence.
Context {num : Type} `{!Numeric num}.
Variable p : params.

Lemma for_each_ext {A} (xs : list A) (f g : A -> M num unit) :
  (forall x s, x ∈ xs -> f x s = g x s) ->
  forall s, for_each xs f s = for_each xs g s.
Proof.
  induction xs as [| x xs IH]; intros Hfg s; [reflexivity |].
  rewrite !for_each_cons, (Hfg x s) by apply list_elem_of_here.
  destruct (g x s) as [s' [e | []]]; [reflexivity |].
  apply IH. intros y s0 Hy. apply Hfg. apply list_elem_of_further, Hy.
Qed.

Lemma same_summed_columns_refl (t : table num) : same_summed_columns t t.
Proof. split_and!; reflexivity. Qed.

Lemma add_column_same (tables tables' : gmap string (table num))
    (k : string) (i j : nat) (t t' : table num) (s : astate num) :
  tables !! k = Some t ->
  tables' !! k = Some t' ->
  same_summed_columns t t' ->
  (1 <= j)%nat ->
  add_column tables k i j s = add_column tables' k i j s.
Proof.
  intros Ht Ht' (_ & Hlen & Hcols) Hj.
  unfold add_column, bind, nevents_getitem, tables_getitem, data_getitem.
  destruct (nevents s !! i) as [cur |]; [| reflexivity].
  rewrite Ht, Ht', (Hcols j Hj), Hlen. reflexivity.
Qed.

Lemma bin_body_same (tables tables' : gmap string (table num))
    (i : nat) (s : astate num) :
  option_Forall2 same_summed_columns (tables !! key p i) (tables' !! key p i) ->
  bin_body p tables i s = bin_body p tables' i s.
Proof.
  intros Hrel. inversion Hrel as [t t' Hsame Ht Ht' | Ht Ht'].
  - symmetry in Ht, Ht'.
    unfold bin_body, bind, tables_getitem. rewrite Ht, Ht'.
    destruct Hsame as (Hwords & Hrest). rewrite Hwords.
    apply for_each_ext. intros j s0 Hj.
    apply (add_column_same _ _ _ _ _ t t'); try assumption.
    + split; assumption.
    + unfold range in Hj. apply elem_of_seq in Hj. lia.
  - symmetry in Ht, Ht'.
    rewrite (bin_body_missing p tables i s Ht),
      (bin_body_missing p tables' i s Ht').
    reflexivity.
Qed.

Lemma aggregation_loop_same (tables tables' : gmap string (table num)) (n : nat) :
  (forall i, (i < n)%nat ->
     option_Forall2 same_summed_columns
       (tables !! key p i) (tables' !! key p i)) ->
  aggregation_loop p n tables = aggregation_loop p n tables'.
Proof.
  intros Hrel. unfold aggregation_loop.
  apply for_each_ext. intros i s Hi.
  apply bin_body_same, Hrel.
  unfold range in Hi. apply elem_of_seq in Hi. lia.
Qed.
End AggregationDependence.

(** X1: the loop looks at the mapping only under the keys of its bins. Two
    mappings with the same entries under those keys give the same counts,
    or the same exception, after the same lookups, whatever else they
    hold. *)
Theorem aggregation_reads_bin_keys_only {num : Type} `{!Numeric num}
    (p : params) (n : nat) (tables tables' : gmap string (table num)) :
  (forall i, (i < n)%nat -> tables !! key p i = tables' !! key p i) ->
  aggregate p n tables = aggregate p n tables' /\
  keys_read p n tables = keys_read p n tables'.
Proof.
  intros Hsame.
  assert (Hloop : aggregation_loop p n tables = aggregation_loop p n tables').
  { apply aggregation_loop_same. intros i Hi. rewrite (Hsame i Hi).
    apply option_Forall2_refl. intros t. apply same_summed_columns_refl. }
  unfold aggregate, keys_read. rewrite Hloop. split; reflexivity.
Qed.

Lemma other_key_not_a_bin (i : nat) : "README" <> key notebook_params i.
Proof.
  rewrite key_unfold. intros H. discriminate H.
Qed.

Lemma aggregation_reads_bin_keys_only_witness :
  (forall i, (i < 60)%nat ->
     sample_tables !! key notebook_params i
     = <["README" := short_table]> sample_tables !! key notebook_params i) /\
  aggregate notebook_params 60 sample_tables
  = aggregate notebook_params 60 (<["README" := short_table]> sample_tables) /\
  keys_read notebook_params 60 sample_tables
  = keys_read notebook_params 60 (<["README" := short_table]> sample_tables).
Proof.
  assert (H : forall i, (i < 60)%nat ->
     sample_tables !! key notebook_params i
     = <["README" := short_table]> sample_tables !! key notebook_params i).
  { intros i _. symmetry. apply lookup_insert_ne, other_key_not_a_bin. }
  split; [exact H |].
  apply (aggregation_reads_bin_keys_only notebook_params 60 _ _ H).
Defined.

(** X2: column 0 of a table is never summed. Replacing it, under any key of
    the mapping, changes neither the counts nor the exception of the loop. *)
Theorem energy_column_ignored {num : Type} `{!Numeric num}
    (p : params) (n : nat) (tables : gmap string (table num))
    (k : string) (t : table num) (col : list num) :
  tables !! k = Some t ->
  aggregate p n
    (<[k := {| header := header t; data := <[0%nat := col]> (data t) |}]> tables)
  = aggregate p n tables.
Proof.
  intros Ht.
  assert (Hloop :
    aggregation_loop p n
      (<[k := {| header := header t; data := <[0%nat := col]> (data t) |}]> tables)
    = aggregation_loop p n tables).
  { apply aggregation_loop_same. intros i _.
    destruct (decide (k = key p i)) as [<- | Hne].
    - rewrite lookup_insert_eq, Ht. apply Some_Forall2.
      split_and!; simpl.
      + reflexivity.
      + apply length_insert.
      + intros j Hj. apply list_lookup_insert_ne. lia.
    - rewrite lookup_insert_ne by exact Hne.
      apply option_Forall2_refl. intros t0. apply same_summed_columns_refl. }
  unfold aggregate. rewrite Hloop. reflexivity.
Qed.

Lemma energy_column_ignored_witness :
  sample_tables !! key notebook_params 7 = Some sample_table /\
  aggregate notebook_params 60
    (<[key notebook_params 7 :=
         {| header := header sample_table;
            data := <[0%nat := [9; 9; 9]%Q]> (data sample_table) |}]> sample_tables)
  = aggregate notebook_params 60 sample_tables.
Proof.
  assert (H : sample_tables !! key notebook_params 7 = Some sample_table)
    by (vm_compute; reflexivity).
  split; [exact H |].
  apply (energy_column_ignored notebook_params 60 sample_tables _ _ _ H).
Defined.

(** X3: a table whose header is empty or a single word adds nothing: when
    the loop completes, the count of its bin is zero, whatever its data. *)
Theorem bare_header_counts_zero {num : Type} `{!Numeric num}
    (p : params) (n : nat) (tables : gmap string (table num))
    (nev : list num) (i : nat) (t : table num) :
  aggregate p n tables = inr nev ->
  (i < n)%nat ->
  tables !! key p i = Some t ->
  (length (split (header t)) <= 1)%nat ->
  nev !! i = Some zero.
Proof.
  intros Hagg Hi Ht Hwords.
  pose proof (aggregate_inv p tables _ _ Hagg) as Hok.
  destruct (aggregate_ok p tables _ Hok) as (nev' & Hagg' & _ & Hin & _).
  rewrite Hagg in Hagg'. injection Hagg' as <-.
  destruct (Hin i Hi) as (t' & Ht' & Hres).
  rewrite Ht in Ht'. injection Ht' as <-.
  rewrite Hres. unfold nevents_spec, column_sums.
  replace (length (split (header t)) - 1)%nat with 0%nat by lia.
  reflexivity.
Qed.

Lemma bare_header_counts_zero_witness :
  aggregate notebook_params 60
    (<[key notebook_params 5 := bare_table]> sample_tables)
  = inr (<[5%nat := 0%Q]> (replicate 60 18%Q)) /\
  (5 < 60)%nat /\
  <[key notebook_params 5 := bare_table]> sample_tables !! key notebook_params 5
  = Some bare_table /\
  (length (split (header bare_table)) <= 1)%nat /\
  <[5%nat := 0%Q]> (replicate 60 18%Q) !! 5%nat = Some 0%Q.
Proof.
  assert (H1 : aggregate notebook_params 60
                 (<[key notebook_params 5 := bare_table]> sample_tables)
               = inr (<[5%nat := 0%Q]> (replicate 60 18%Q)))
    by (vm_compute; reflexivity).
  assert (H2 : (5 < 60)%nat) by lia.
  assert (H3 : <[key notebook_params 5 := bare_table]> sample_tables
               !! key notebook_params 5 = Some bare_table)
    by apply lookup_insert_eq.
  assert (H4 : (length (split (header bare_table)) <= 1)%nat)
    by (vm_compute; lia).
  split_and!; try assumption.
  apply (bare_header_counts_zero notebook_params 60 _ _ 5 bare_table H1 H2 H3 H4).
Defined.

(** X4: the first bin whose header has two or more words, and more words
    than its data has columns, stops the loop with an [IndexError]: the
    index is the first missing column, [max(1, len(data))], and nothing is
    returned. *)
Theorem short_table_index_error {num : Type} `{!Numeric num}
    (p : params) (n : nat) (tables : gmap string (table num))
    (i : nat) (t : table num) :
  (i < n)%nat ->
  (forall i', (i' < i)%nat ->
     exists t', tables !! key p i' = Some t' /\
                (length (split (header t')) <= 1
                 \/ length (split (header t')) <= length (data t'))%nat) ->
  tables !! key p i = Some t ->
  (1 < length (split (header t)))%nat ->
  (length (data t) < length (split (header t)))%nat ->
  aggregate p n tables
  = inl (IndexError (Nat.max 1 (length (data t))) (length (data t))).
Proof.
  intros Hi Hbefore Ht Hwords Hshort.
  destruct (aggregation_loop_stops p tables n i Hi) as (s1 & _ & [cur Hcur] & Hloop).
  { intros i' Hi'. apply bin_ok_spec, Hbefore, Hi'. }
  destruct (bin_body_bad_shape p tables i s1 cur t Hcur Ht) as (s' & Hbad).
  { unfold shape_ok. apply orb_false_iff. rewrite !Nat.leb_gt. lia. }
  unfold aggregate. rewrite Hloop, Hbad. reflexivity.
Qed.

Lemma short_table_index_error_witness :
  (0 < 60)%nat /\
  (forall i', (i' < 0)%nat ->
     exists t', short_tables !! key notebook_params i' = Some t' /\
                (length (split (header t')) <= 1
                 \/ length (split (header t')) <= length (data t'))%nat) /\
  short_tables !! key notebook_params 0 = Some short_table /\
  (1 < length (split (header short_table)))%nat /\
  (length (data short_table) < length (split (header short_table)))%nat /\
  aggregate notebook_params 60 short_tables = inl (IndexError 1 1).
Proof.
  assert (H1 : (0 < 60)%nat) by lia.
  assert (H2 : forall i', (i' < 0)%nat ->
     exists t', short_tables !! key notebook_params i' = Some t' /\
                (length (split (header t')) <= 1
                 \/ length (split (header t')) <= length (data t'))%nat)
    by (intros i' Hi'; lia).
  assert (H3 : short_tables !! key notebook_params 0 = Some short_table)
    by (vm_compute; reflexivity).
  assert (H4 : (1 < length (split (header short_table)))%nat)
    by (vm_compute; lia).
  assert (H5 : (length (data short_table) < length (split (header short_table)))%nat)
    by (vm_compute; lia).
  split_and!; try assumption.
  apply (short_table_index_error notebook_params 60 short_tables 0 short_table
           H1 H2 H3 H4 H5).
Defined.

(** X5: when the key of bin [i] is the first thing wrong, the loop has
    looked up the keys of the bins 0 to [i] and of no later bin. *)
Theorem missing_key_stops_reading {num : Type} `{!Numeric num}
    (p : params) (n : nat) (tables : gmap string (table num)) (i : nat) :
  (i < n)%nat ->
  (forall i', (i' < i)%nat ->
     exists t', tables !! key p i' = Some t' /\
                (length (split (header t')) <= 1
                 \/ length (split (header t')) <= length (data t'))%nat) ->
  tables !! key p i = None ->
  forall k, k ∈ keys_read p n tables <->
            exists i', (i' <= i)%nat /\ k = key p i'.
Proof.
  intros Hi Hbefore Ht k.
  destruct (aggregation_loop_stops p tables n i Hi) as (s1 & Hreads & _ & Hloop).
  { intros i' Hi'. apply bin_ok_spec, Hbefore, Hi'. }
  unfold keys_read. rewrite Hloop, (bin_body_missing p tables i s1 Ht). simpl.
  rewrite elem_of_app, Hreads, list_elem_of_singleton. split.
  - intros [(i' & Hi' & ->) | ->].
    + exists i'. split; [lia | reflexivity].
    + exists i. split; [lia | reflexivity].
  - intros (i' & Hi' & ->).
    destruct (decide (i' = i)) as [-> | Hne]; [right; reflexivity |].
    left. exists i'. split; [lia | reflexivity].
Qed.

Lemma missing_key_stops_reading_witness :
  (3 < 60)%nat /\
  (forall i', (i' < 3)%nat ->
     exists t', delete (key notebook_params 3) sample_tables
                !! key notebook_params i' = Some t' /\
                (length (split (header t')) <= 1
                 \/ length (split (header t')) <= length (data t'))%nat) /\
  delete (key notebook_params 3) sample_tables !! key notebook_params 3 = None /\
  forall k,
    k ∈ keys_read notebook_params 60 (delete (key notebook_params 3) sample_tables)
    <-> exists i', (i' <= 3)%nat /\ k = key notebook_params i'.
Proof.
  assert (H1 : (3 < 60)%nat) by lia.
  assert (H2 : forall i', (i' < 3)%nat ->
     exists t', delete (key notebook_params 3) sample_tables
                !! key notebook_params i' = Some t' /\
                (length (split (header t')) <= 1
                 \/ length (split (header t')) <= length (data t'))%nat).
  { intros [| [| [| i']]] Hi'; [| | | lia];
      (exists sample_table; split; [vm_compute; reflexivity | right; vm_compute; lia]). }
  assert (H3 : delete (key notebook_params 3) sample_tables
               !! key notebook_params 3 = None)
    by apply lookup_delete_eq.
  split_and!; try assumption.
  apply (missing_key_stops_reading notebook_params 60 _ 3 H1 H2 H3).
Defined.

(** ** Runs of the notebook that stop early *)

(** Splits a hypothesis [Hrun] on a spelled-out run along the answers of the
    toolkit, the aggregation and [factor]. *)
Ltac run_cases Hrun :=
  repeat match type of Hrun with
    | context [match ?x with inl _ => _ | inr _ => _ end] =>
        let E := fresh "Hans" in destruct x eqn:E
    end.

(** Goes through the entries of a spelled-out record. *)
Ltac entry_cases Hx :=
  cbn [app] in Hx;
  repeat (apply elem_of_cons in Hx as [-> | Hx]);
  try (apply elem_of_nil in Hx; destruct Hx).

Lemma aggregate_length {num : Type} `{!Numeric num} (p : params) (n : nat)
    (tables : gmap string (table num)) (nev : list num) :
  aggregate p n tables = inr nev -> length nev = n.
Proof.
  intros Hagg.
  pose proof (aggregate_inv p tables _ _ Hagg) as Hok.
  destruct (aggregate_ok p tables _ Hok) as (nev' & Hagg' & Hlen & _).
  rewrite Hagg in Hagg'. injection Hagg' as <-. exact Hlen.
Qed.

(** X6: in every run, whatever the toolkit answers, the stages happen in
    the order fluence generator, detector simulator, collator, plot, each at
    most once and none before the one it follows. *)
Theorem stages_in_order (p : params) (tk : toolkit) :
  stages (run tk [] (notebook p)).1
  `prefix_of` [FluenceGenerator; DetectorSimulator; Collator; Plot].
Proof.
  destruct (time_windows p) as [e | w] eqn:Hw.
  - rewrite (notebook_run_no_windows p tk e Hw). simpl. apply prefix_nil.
  - rewrite (notebook_run p tk w Hw). cbv zeta.
    repeat match goal with
      | |- context [match ?x with inl _ => _ | inr _ => _ end] => destruct x
      end;
      cbn; eexists; reflexivity.
Qed.

(** X7: with [window_bins = 0] the parameter cell divides by zero: the
    notebook ends with [ZeroDivisionError] before any toolkit call. *)
Theorem no_bins_no_calls (p : params) (tk : toolkit) :
  window_bins p = 0%nat ->
  run tk [] (notebook p) = ([], inl ZeroDivisionError).
Proof.
  intros Hbins. apply notebook_run_no_windows.
  unfold time_windows, div_int. rewrite Hbins. reflexivity.
Qed.

Lemma no_bins_no_calls_witness :
  window_bins (with_window (742 # 1000) (762 # 1000) 0) = 0%nat /\
  run sample_toolkit [] (notebook (with_window (742 # 1000) (762 # 1000) 0))
  = ([], inl ZeroDivisionError).
Proof.
  split; [reflexivity |].
  apply (no_bins_no_calls (with_window (742 # 1000) (762 # 1000) 0) sample_toolkit).
  reflexivity.
Defined.

Lemma factor_zero_width (p : params) :
  (window_tend p == window_tstart p)%Q -> factor p = inl ZeroDivisionError.
Proof.
  intros Heq. unfold factor.
  destruct (Qeq_bool (window_tend p - window_tstart p) 0) eqn:Hd; [reflexivity |].
  apply Qeq_bool_neq in Hd. exfalso. apply Hd. lra.
Qed.

(** X8: with [window_tend = window_tstart] the notebook never completes and
    never plots: the toolkit is called as usual, and once the collated
    tables are summed, [factor] divides by zero. *)
Theorem zero_width_window (p : params) (tk : toolkit)
    (h : list entry) (r : exn + unit) :
  (0 < window_bins p)%nat ->
  (window_tend p == window_tstart p)%Q ->
  run tk [] (notebook p) = (h, r) ->
  r <> inr tt /\
  (Plot ∉ stages h) /\
  (forall x tables nev,
     x ∈ h -> collated_of x = Some tables ->
     aggregate p (window_bins p) tables = inr nev ->
     r = inl ZeroDivisionError /\
     stages h = [FluenceGenerator; DetectorSimulator; Collator]).
Proof.
  intros Hpos Heq Hrun.
  destruct (windows_lengths p Hpos) as (w & Hw & _ & _ & Hlen).
  rewrite (notebook_run p tk w Hw) in Hrun. cbv zeta in Hrun.
  rewrite Hlen, (factor_zero_width p Heq) in Hrun.
  run_cases Hrun; injection Hrun as <- <-.
  all: split; [discriminate | split].
  all: try (cbn; intros Hin;
            repeat (apply elem_of_cons in Hin as [Hin | Hin]; [discriminate Hin |]);
            apply elem_of_nil in Hin; exact Hin).
  all: intros x tables0 nev0 Hx Hc Hagg; entry_cases Hx; try discriminate Hc.
  all: simpl in Hc; injection Hc as <-.
  - rewrite Hagg in *. discriminate.
  - split; reflexivity.
Qed.

Lemma zero_width_window_witness :
  exists (h : list entry) (r : exn + unit),
    (0 < window_bins (with_window (742 # 1000) (742 # 1000) 60))%nat /\
    (window_tend (with_window (742 # 1000) (742 # 1000) 60)
     == window_tstart (with_window (742 # 1000) (742 # 1000) 60))%Q /\
    run sample_toolkit [] (notebook (with_window (742 # 1000) (742 # 1000) 60))
    = (h, r) /\
    r <> inr tt /\
    (Plot ∉ stages h) /\
    (forall x tables nev,
       x ∈ h -> collated_of x = Some tables ->
       aggregate (with_window (742 # 1000) (742 # 1000) 60) 60 tables = inr nev ->
       r = inl ZeroDivisionError /\
       stages h = [FluenceGenerator; DetectorSimulator; Collator]).
Proof.
  destruct (run sample_toolkit []
              (notebook (with_window (742 # 1000) (742 # 1000) 60)))
    as [h r] eqn:Hrun.
  assert (H1 : (0 < window_bins (with_window (742 # 1000) (742 # 1000) 60))%nat)
    by (simpl; lia).
  assert (H2 : (window_tend (with_window (742 # 1000) (742 # 1000) 60)
                == window_tstart (with_window (742 # 1000) (742 # 1000) 60))%Q)
    by reflexivity.
  exists h, r. split_and!; [exact H1 | exact H2 | reflexivity | ..];
    apply (zero_width_window _ sample_toolkit h r H1 H2 Hrun).
Defined.

(** X9: an exception of the aggregation loop ends the notebook. Once the
    collator has returned a mapping on which the loop fails, the outcome is
    that exception, and nothing is plotted. *)
Theorem aggregation_error_stops (p : params) (tk : toolkit)
    (h : list entry) (r : exn + unit) (x : entry)
    (tables : gmap string (table Q)) (e : exn) :
  run tk [] (notebook p) = (h, r) ->
  x ∈ h ->
  collated_of x = Some tables ->
  aggregate p (window_bins p) tables = inl e ->
  r = inl e /\ stages h = [FluenceGenerator; DetectorSimulator; Collator].
Proof.
  intros Hrun Hx Hc Hagg.
  destruct (time_windows p) as [e0 | w] eqn:Hw.
  { rewrite (notebook_run_no_windows p tk e0 Hw) in Hrun.
    injection Hrun as <- <-. apply elem_of_nil in Hx. destruct Hx. }
  destruct (time_windows_length p w Hw) as (_ & _ & Hlen).
  rewrite (notebook_run p tk w Hw) in Hrun. cbv zeta in Hrun.
  rewrite Hlen in Hrun.
  run_cases Hrun; injection Hrun as <- <-.
  all: entry_cases Hx; try discriminate Hc.
  all: simpl in Hc; injection Hc as <-.
  all: rewrite Hagg in *.
  all: match goal with H : inl _ = _ |- _ => try discriminate H end.
  match goal with H : inl _ = inl _ |- _ => injection H as <- end.
  split; reflexivity.
Qed.

(** With a toolkit whose calls all return, the call of the collator is in
    the record. *)
Lemma collate_entry_recorded (p : params) (tables : gmap string (table Q))
    (w : windows) :
  time_windows p = inr w ->
  exists tarredfile,
    Called (collate (SNOwGLoBES_path p) tarredfile true) (inr tables)
    ∈ (run (toolkit_returning tables) [] (notebook p)).1.
Proof.
  intros Hw. rewrite (notebook_run p _ w Hw). cbv zeta. cbn [toolkit_returning].
  eexists.
  destruct (aggregate p (length (tmid w)) tables) as [e | nev];
    [| destruct (factor p) as [e | f]];
    cbn [fst app]; do 5 apply list_elem_of_further; apply list_elem_of_here.
Qed.

Lemma aggregation_error_stops_witness :
  exists (h : list entry) (r : exn + unit) (x : entry),
    run (toolkit_returning (delete (key notebook_params 3) sample_tables)) []
      (notebook notebook_params) = (h, r) /\
    x ∈ h /\
    collated_of x = Some (delete (key notebook_params 3) sample_tables) /\
    aggregate notebook_params (window_bins notebook_params)
      (delete (key notebook_params 3) sample_tables)
    = inl (KeyError (key notebook_params 3)) /\
    r = inl (KeyError (key notebook_params 3)) /\
    stages h = [FluenceGenerator; DetectorSimulator; Collator].
Proof.
  assert (Hw : exists w, time_windows notebook_params = inr w).
  { eexists. reflexivity. }
  destruct Hw as [w Hw].
  destruct (collate_entry_recorded notebook_params
              (delete (key notebook_params 3) sample_tables) w Hw)
    as [tarredfile Hx].
  destruct (run (toolkit_returning (delete (key notebook_params 3) sample_tables)) []
              (notebook notebook_params)) as [h r] eqn:Hrun.
  change (Called (collate (SNOwGLoBES_path notebook_params) tarredfile true)
            (inr (delete (key notebook_params 3) sample_tables)) ∈ h) in Hx.
  assert (Hc : collated_of
                 (Called (collate (SNOwGLoBES_path notebook_params) tarredfile true)
                    (inr (delete (key notebook_params 3) sample_tables)))
               = Some (delete (key notebook_params 3) sample_tables))
    by reflexivity.
  assert (Hagg : aggregate notebook_params (window_bins notebook_params)
                   (delete (key notebook_params 3) sample_tables)
                 = inl (KeyError (key notebook_params 3)))
    by (vm_compute; reflexivity).
  exists h, r, (Called (collate (SNOwGLoBES_path notebook_params) tarredfile true)
                  (inr (delete (key notebook_params 3) sample_tables))).
  split; [reflexivity |]. split; [exact Hx |]. split; [exact Hc |].
  split; [exact Hagg |].
  apply (aggregation_error_stops notebook_params _ h r _ _ _ Hrun Hx Hc Hagg).
Defined.

(** ** Runs of the notebook that complete: what is plotted *)

Lemma time_windows_bins_pos (p : params) (w : windows) :
  time_windows p = inr w -> (0 < window_bins p)%nat.
Proof.
  unfold time_windows, div_int.
  destruct (Nat.eqb_spec (window_bins p) 0); [discriminate | lia].
Qed.

Lemma factor_inv (p : params) (f : Q) :
  factor p = inr f ->
  ~ (window_tend p - window_tstart p == 0)%Q /\
  f = (Qnat (window_bins p) / (window_tend p - window_tstart p) / 1000)%Q.
Proof.
  unfold factor.
  destruct (Qeq_bool (window_tend p - window_tstart p) 0) eqn:Hd; [discriminate |].
  intros [= <-]. split; [apply Qeq_bool_neq, Hd | reflexivity].
Qed.

(** What a completed run plotted and printed. *)
Lemma completed_run_outputs (p : params) (tk : toolkit) (h : list entry) :
  run tk [] (notebook p) = (h, inr tt) ->
  exists (w : windows) (tables : gmap string (table Q)) (nev : list Q) (f : Q),
    time_windows p = inr w /\
    aggregate p (window_bins p) tables = inr nev /\
    factor p = inr f /\
    (forall x xs ys, x ∈ h -> plotted_of x = Some (xs, ys) ->
       xs = map (fun t => t - (742 # 1000))%Q (tmid w) /\
       ys = map (fun n => n * f)%Q nev) /\
    (forall x v, x ∈ h -> total_of x = Some v -> v = pysum nev).
Proof.
  intros Hrun.
  destruct (time_windows p) as [e | w] eqn:Hw.
  { rewrite (notebook_run_no_windows p tk e Hw) in Hrun. discriminate. }
  destruct (time_windows_length p w Hw) as (_ & _ & Hlen).
  rewrite (notebook_run p tk w Hw) in Hrun. cbv zeta in Hrun.
  rewrite Hlen in Hrun.
  run_cases Hrun; try discriminate. injection Hrun as <-.
  eexists w, _, _, _. split_and!; try eassumption; try reflexivity.
  - intros x xs ys Hx Hp. entry_cases Hx; try discriminate Hp.
    simpl in Hp. injection Hp as <- <-. split; reflexivity.
  - intros x v Hx Ht. entry_cases Hx; try discriminate Ht.
    simpl in Ht. injection Ht as <-. reflexivity.
Qed.

(** With a toolkit whose calls all return, a mapping that the loop accepts
    and a window that is not empty, the run completes and the record holds
    the plot and the printed total. *)
Lemma completed_run_of_returning (p : params) (tables : gmap string (table Q))
    (w : windows) (nev : list Q) (f : Q) :
  time_windows p = inr w ->
  aggregate p (length (tmid w)) tables = inr nev ->
  factor p = inr f ->
  exists h,
    run (toolkit_returning tables) [] (notebook p) = (h, inr tt) /\
    Shown (plt_plot (map (fun t => t - (742 # 1000))%Q (tmid w))
                    (map (fun n => n * f)%Q nev)) ∈ h /\
    Shown (print [Str "Total Events:"; Num (pysum nev)]) ∈ h.
Proof.
  intros Hw Hagg Hf. rewrite (notebook_run p _ w Hw). cbv zeta.
  cbn [toolkit_returning]. rewrite Hagg, Hf.
  eexists. split; [reflexivity |]. cbn [app]. split.
  - do 6 apply list_elem_of_further. apply list_elem_of_here.
  - do 10 apply list_elem_of_further. apply list_elem_of_here.
Qed.

Lemma fold_left_Qplus_proper (l : list Q) (a b : Q) :
  (a == b)%Q -> (fold_left Qplus l a == fold_left Qplus l b)%Q.
Proof.
  revert a b. induction l as [| x l IH]; intros a b Hab; simpl.
  - exact Hab.
  - apply IH. rewrite Hab. reflexivity.
Qed.

Lemma fold_left_Qplus_scale (l : list Q) (f a : Q) :
  (fold_left Qplus (map (fun n => n * f) l) (a * f)
   == fold_left Qplus l a * f)%Q.
Proof.
  revert a. induction l as [| x l IH]; intros a; simpl.
  - reflexivity.
  - rewrite <- IH. apply fold_left_Qplus_proper. ring.
Qed.

Lemma pysum_scale (l : list Q) (f : Q) :
  (pysum (map (fun n => n * f) l) == pysum l * f)%Q.
Proof.
  unfold pysum. cbn [add zero Q_Numeric].
  rewrite <- fold_left_Qplus_scale. apply fold_left_Qplus_proper. ring.
Qed.

(** X10: in a run that completes, the plotted rates, each over one bin
    width in milliseconds, add up to the total that is printed, over the
    rationals. *)
Theorem rates_integrate_to_total (p : params) (tk : toolkit) (h : list entry)
    (ex et : entry) (xs ys : list Q) (total : Q) :
  run tk [] (notebook p) = (h, inr tt) ->
  ex ∈ h -> plotted_of ex = Some (xs, ys) ->
  et ∈ h -> total_of et = Some total ->
  (pysum ys * (bin_width p * 1000) == total)%Q.
Proof.
  intros Hrun Hex Hp Het Ht.
  destruct (completed_run_outputs p tk h Hrun)
    as (w & tables & nev & f & Hw & _ & Hf & Hplot & Htotal).
  destruct (Hplot ex xs ys Hex Hp) as [_ ->].
  rewrite (Htotal et total Het Ht).
  destruct (factor_inv p f Hf) as [Hd ->].
  pose proof (Qnat_nonzero _ (time_windows_bins_pos p w Hw)) as Hbins.
  rewrite pysum_scale. unfold bin_width. field. split; assumption.
Qed.

(** A completed run on the notebook's values, with its plot and total. *)
Lemma sample_completed_run :
  exists (w : windows) (f : Q) (h : list entry),
    run (toolkit_returning sample_tables) [] (notebook notebook_params)
    = (h, inr tt) /\
    Shown (plt_plot (map (fun t => t - (742 # 1000))%Q (tmid w))
                    (map (fun n => n * f)%Q (replicate 60 18%Q))) ∈ h /\
    Shown (print [Str "Total Events:"; Num (pysum (replicate 60 18%Q))]) ∈ h.
Proof.
  assert (Hw : exists w, time_windows notebook_params = inr w).
  { eexists. reflexivity. }
  destruct Hw as [w Hw].
  assert (Hagg : aggregate notebook_params (length (tmid w)) sample_tables
                 = inr (replicate 60 18%Q)).
  { destruct (time_windows_length _ _ Hw) as (_ & _ & ->).
    vm_compute. reflexivity. }
  assert (Hf : exists f, factor notebook_params = inr f).
  { eexists. apply factor_ok. intros H. vm_compute in H. discriminate. }
  destruct Hf as [f Hf].
  destruct (completed_run_of_returning _ _ w _ f Hw Hagg Hf) as (h & Hrun & H1 & H2).
  exists w, f, h. split_and!; assumption.
Defined.

Lemma rates_integrate_to_total_witness :
  exists (h : list entry) (ex et : entry) (xs ys : list Q) (total : Q),
    run (toolkit_returning sample_tables) [] (notebook notebook_params)
    = (h, inr tt) /\
    ex ∈ h /\ plotted_of ex = Some (xs, ys) /\
    et ∈ h /\ total_of et = Some total /\
    (pysum ys * (bin_width notebook_params * 1000) == total)%Q.
Proof.
  destruct sample_completed_run as (w & f & h & Hrun & Hex & Het).
  eexists h, _, _, _, _, _.
  split; [exact Hrun |]. split; [exact Hex |]. split; [reflexivity |].
  split; [exact Het |]. split; [reflexivity |].
  apply (rates_integrate_to_total notebook_params _ h _ _ _ _ _
           Hrun Hex eq_refl Het eq_refl).
Defined.

(** X11: in a run that completes, the two arrays given to [plt.plot] both
    have [window_bins] entries, and the abscissa of bin [i] is the middle
    of the window counted from 0.742:
    [window_tstart - 0.742 + (i + 1/2) * width], over the rationals. *)
Theorem plot_axes (p : params) (tk : toolkit) (h : list entry)
    (ex : entry) (xs ys : list Q) :
  run tk [] (notebook p) = (h, inr tt) ->
  ex ∈ h -> plotted_of ex = Some (xs, ys) ->
  length xs = window_bins p /\
  length ys = window_bins p /\
  forall i, (i < window_bins p)%nat ->
    exists x, xs !! i = Some x /\
      (x == window_tstart p - (742 # 1000)
            + (Qnat i + (1 # 2)) * bin_width p)%Q.
Proof.
  intros Hrun Hex Hp.
  destruct (completed_run_outputs p tk h Hrun)
    as (w & tables & nev & f & Hw & Hagg & _ & Hplot & _).
  destruct (Hplot ex xs ys Hex Hp) as [-> ->].
  destruct (time_windows_length p w Hw) as (_ & _ & Hlen).
  pose proof (time_windows_bins_pos p w Hw) as Hpos.
  pose proof (Qnat_nonzero _ Hpos) as Hbins.
  split_and!.
  - rewrite length_map. exact Hlen.
  - rewrite length_map. apply (aggregate_length p _ tables), Hagg.
  - intros i Hi.
    destruct (window_lookup p Hpos i Hi) as (w' & s & Hw' & _ & _ & Hm & Hs).
    rewrite Hw in Hw'. injection Hw' as <-.
    eexists. split; [rewrite list_lookup_fmap, Hm; reflexivity |].
    simpl. rewrite Hs. unfold bin_width. field. exact Hbins.
Qed.

Lemma plot_axes_witness :
  exists (h : list entry) (ex : entry) (xs ys : list Q),
    run (toolkit_returning sample_tables) [] (notebook notebook_params)
    = (h, inr tt) /\
    ex ∈ h /\ plotted_of ex = Some (xs, ys) /\
    length xs = window_bins notebook_params /\
    length ys = window_bins notebook_params /\
    forall i, (i < window_bins notebook_params)%nat ->
      exists x, xs !! i = Some x /\
        (x == window_tstart notebook_params - (742 # 1000)
              + (Qnat i + (1 # 2)) * bin_width notebook_params)%Q.
Proof.
  destruct sample_completed_run as (w & f & h & Hrun & Hex & _).
  eexists h, _, _, _.
  split; [exact Hrun |]. split; [exact Hex |]. split; [reflexivity |].
  apply (plot_axes notebook_params _ h _ _ _ Hrun Hex eq_refl).
Defined.

(** ** More on the time windows, the keys and the header *)

Lemma Qnat_le (i j : nat) : (i <= j)%nat -> (Qnat i <= Qnat j)%Q.
Proof.
  intros Hij. unfold Qnat, Qle. simpl. lia.
Qed.

(** X12: when [window_tstart < window_tend], every window lies inside
    [[window_tstart, window_tend]] and has its start before its middle
    before its end, over the rationals. *)
Theorem windows_ordered (p : params) (i : nat) :
  (window_tstart p < window_tend p)%Q ->
  (i < window_bins p)%nat ->
  exists w s e m,
    time_windows p = inr w /\
    tstart w !! i = Some s /\ tend w !! i = Some e /\ tmid w !! i = Some m /\
    (window_tstart p <= s)%Q /\ (s < m)%Q /\ (m < e)%Q /\
    (e <= window_tend p)%Q.
Proof.
  intros Hlt Hi.
  assert (Hpos : (0 < window_bins p)%nat) by lia.
  pose proof (Qnat_nonzero _ Hpos) as Hbins.
  destruct (window_lookup p Hpos i Hi) as (w & s & Hw & Hs & He & Hm & Heq).
  exists w, s, (s + bin_width p)%Q, ((s + (s + bin_width p)) * (1 # 2))%Q.
  assert (Hn : (0 < Qnat (window_bins p))%Q).
  { pose proof (Qnat_le 0 (window_bins p) ltac:(lia)) as H0.
    change (Qnat 0) with 0%Q in H0.
    destruct (Qle_lt_or_eq _ _ H0) as [H | H]; [exact H |].
    exfalso. apply Hbins. symmetry. exact H. }
  assert (Hwidth : (0 < bin_width p)%Q).
  { unfold bin_width. apply Qlt_shift_div_l; [exact Hn | lra]. }
  assert (Hsw : (s == window_tstart p + Qnat i * bin_width p)%Q).
  { rewrite Heq. unfold bin_width. field. exact Hbins. }
  assert (Hlow : (0 <= Qnat i * bin_width p)%Q).
  { apply Qmult_le_0_compat; [| lra].
    pose proof (Qnat_le 0 i ltac:(lia)) as H0. exact H0. }
  assert (Hhigh : ((Qnat i + 1) * bin_width p <= Qnat (window_bins p) * bin_width p)%Q).
  { apply Qmult_le_compat_r; [| lra].
    rewrite <- Qnat_S. apply Qnat_le. lia. }
  assert (Hall : (Qnat (window_bins p) * bin_width p
                  == window_tend p - window_tstart p)%Q).
  { unfold bin_width. field. exact Hbins. }
  assert (Hhigh' : (Qnat i * bin_width p + bin_width p
                    <= window_tend p - window_tstart p)%Q).
  { assert (Hr : (Qnat i * bin_width p + bin_width p
                  == (Qnat i + 1) * bin_width p)%Q) by ring.
    rewrite Hr, <- Hall. exact Hhigh. }
  set (a := (Qnat i * bin_width p)%Q) in *.
  split_and!; try assumption; lra.
Qed.

Lemma windows_ordered_witness :
  (window_tstart notebook_params < window_tend notebook_params)%Q /\
  (59 < window_bins notebook_params)%nat /\
  exists w s e m,
    time_windows notebook_params = inr w /\
    tstart w !! 59%nat = Some s /\ tend w !! 59%nat = Some e /\
    tmid w !! 59%nat = Some m /\
    (window_tstart notebook_params <= s)%Q /\ (s < m)%Q /\ (m < e)%Q /\
    (e <= window_tend notebook_params)%Q.
Proof.
  assert (H1 : (window_tstart notebook_params < window_tend notebook_params)%Q)
    by reflexivity.
  assert (H2 : (59 < window_bins notebook_params)%nat) by (simpl; lia).
  split_and!; [exact H1 | exact H2 |].
  apply (windows_ordered notebook_params 59 H1 H2).
Defined.

(** X13: the detector is part of the key: for the same model name and bin,
    two detectors give two keys. *)
Theorem key_detector_inj (p p' : params) (i : nat) :
  outfile p = outfile p' ->
  detector p <> detector p' ->
  key p i <> key p' i.
Proof.
  intros Hout Hdet. rewrite !key_unfold, Hout. intros Heq.
  apply (inj (String.append "Collated_")) in Heq.
  apply (inj (String.append (outfile p'))) in Heq.
  apply (inj (String.append "_")) in Heq.
  apply (inj (String.append (pretty i))) in Heq.
  apply (inj (String.append "_")) in Heq.
  apply string_app_inv_tail in Heq. exact (Hdet Heq).
Qed.

Lemma key_detector_inj_witness :
  outfile (with_detector "icecube") = outfile (with_detector "ar40kt") /\
  detector (with_detector "icecube") <> detector (with_detector "ar40kt") /\
  key (with_detector "icecube") 4 <> key (with_detector "ar40kt") 4.
Proof.
  assert (H1 : outfile (with_detector "icecube") = outfile (with_detector "ar40kt"))
    by reflexivity.
  assert (H2 : detector (with_detector "icecube") <> detector (with_detector "ar40kt"))
    by (simpl; discriminate).
  split_and!; [exact H1 | exact H2 |].
  apply (key_detector_inj (with_detector "icecube") (with_detector "ar40kt") 4 H1 H2).
Defined.

Lemma no_space_app (s t : string) :
  no_space (s +:+ t) = no_space s && no_space t.
Proof.
  induction s as [| c s IH]; [reflexivity |].
  rewrite string_app_cons. simpl. rewrite IH. apply andb_assoc.
Qed.

Lemma split_go_words (s : string) : forall word : string,
  no_space word = true ->
  Forall (fun w => w <> "" /\ no_space w = true) (split_go word s).
Proof.
  induction s as [| c s IH]; intros word Hword; simpl.
  - unfold flush. destruct (decide (word = "")); [constructor |].
    constructor; [split; assumption | constructor].
  - destruct (isspace c) eqn:Hc.
    + unfold flush. destruct (decide (word = "")); [apply IH; reflexivity |].
      constructor; [split; assumption | apply IH; reflexivity].
    + apply IH. rewrite no_space_app, Hword. simpl. rewrite Hc. reflexivity.
Qed.

(** X14: the words that [header.split()] gives are never empty and hold no
    whitespace, so blanks around and between the column names do not
    count as columns. *)
Theorem split_words (s : string) :
  Forall (fun w => w <> "" /\ no_space w = true) (split s).
Proof.
  apply split_go_words. reflexivity.
Qed.

(** ** How often the mapping is looked up *)

Lemma bins_loop_reads {num : Type} `{!Numeric num} (p : params)
    (tables : gmap string (table num)) (m : nat) :
  forall (a : nat) (s : astate num),
    (a + m <= length (nevents s))%nat ->
    (forall i, (a <= i < a + m)%nat -> bin_ok p tables i = true) ->
    reads (for_each (seq a m) (bin_body p tables) s).1
    = reads s ++ concat (map (bin_lookups p tables) (seq a m)).
Proof.
  induction m as [| m IH]; intros a s Hlen Hok.
  - simpl. rewrite app_nil_r. reflexivity.
  - pose proof (Hok a ltac:(lia)) as Ha. unfold bin_ok in Ha.
    destruct (tables !! key p a) as [t |] eqn:Ht; [| discriminate].
    destruct (lookup_lt_is_Some_2 (nevents s) a ltac:(lia)) as [cur Hcur].
    simpl seq. rewrite for_each_cons, (bin_body_ok p tables a s cur t Hcur Ht Ha).
    rewrite IH.
    + cbn [reads map concat]. unfold bin_lookups at 2. rewrite Ht.
      rewrite <- app_assoc. reflexivity.
    + cbn [nevents]. rewrite length_insert. lia.
    + intros i Hi. apply Hok. lia.
Qed.

(** X15: a loop that completes has looked up the mapping, bin after bin in
    the order of the bins, once for the header of the bin and once more
    for each column it sums; it makes no other lookup. *)
Theorem lookups_per_bin {num : Type} `{!Numeric num} (p : params) (n : nat)
    (tables : gmap string (table num)) (nev : list num) :
  aggregate p n tables = inr nev ->
  keys_read p n tables = concat (map (bin_lookups p tables) (seq 0 n)) /\
  forall i t, (i < n)%nat -> tables !! key p i = Some t ->
    bin_lookups p tables i
    = replicate (Nat.max 1 (length (split (header t)))) (key p i).
Proof.
  intros Hagg. pose proof (aggregate_inv p tables _ _ Hagg) as Hok. split.
  - unfold keys_read, aggregation_loop, range. rewrite Nat.sub_0_r.
    rewrite bins_loop_reads.
    + reflexivity.
    + simpl. rewrite length_replicate. lia.
    + intros i Hi. apply Hok. lia.
  - intros i t Hi Ht. unfold bin_lookups. rewrite Ht. f_equal. lia.
Qed.

Lemma lookups_per_bin_witness :
  aggregate notebook_params 60 sample_tables = inr (replicate 60 18%Q) /\
  keys_read notebook_params 60 sample_tables
  = concat (map (bin_lookups notebook_params sample_tables) (seq 0 60)) /\
  forall i t, (i < 60)%nat -> sample_tables !! key notebook_params i = Some t ->
    bin_lookups notebook_params sample_tables i
    = replicate (Nat.max 1 (length (split (header t)))) (key notebook_params i).
Proof.
  assert (H : aggregate notebook_params 60 sample_tables = inr (replicate 60 18%Q))
    by (vm_compute; reflexivity).
  split; [exact H |].
  apply (lookups_per_bin notebook_params 60 sample_tables _ H).
Defined.

(** ** The data flow of a run that completes *)

Lemma key_same_names (p p' : params) (i : nat) :
  outfile p' = outfile p -> detector p' = detector p -> key p' i = key p i.
Proof.
  intros Hout Hdet. rewrite !key_unfold, Hout, Hdet. reflexivity.
Qed.

(** Of the parameters, the loop reads [outfile] and [detector] only. *)
Lemma aggregation_loop_params {num : Type} `{!Numeric num} (p p' : params)
    (n : nat) (tables : gmap string (table num)) :
  outfile p' = outfile p -> detector p' = detector p ->
  aggregation_loop p' n tables = aggregation_loop p n tables.
Proof.
  intros Hout Hdet. unfold aggregation_loop.
  apply for_each_ext. intros i s _.
  unfold bin_body. rewrite (key_same_names p p' i Hout Hdet). reflexivity.
Qed.

(** C4, as the code has it: a run of the notebook that completes went
    through, in this order: the time windows, the fluence generator, the
    detector simulator, the collator, the aggregation, the plot. The path
    returned by the fluence generator is what the simulator and the
    collator receive. The counts are read off the mapping returned by the
    collator: bin [i] is the sum of the columns after column 0 of the table
    under the key of bin [i]. The aggregation reads this mapping under the
    keys of the bins, the length of [tmid], [outfile] and [detector], and
    nothing else: with these the same, the counts are the same. *)
Theorem pipeline_data_flow (p : params) (tk : toolkit) (h : list entry) :
  run tk [] (notebook p) = (h, inr tt) ->
  exists (w : windows) (tarredfile : string)
         (tables : gmap string (table Q)) (nev : list Q) (f : Q),
    time_windows p = inr w /\
    aggregate p (length (tmid w)) tables = inr nev /\
    factor p = inr f /\
    h = [Shown (print [Str "Preparing fluences ..."]);
         Called (generate_fluence (modelfile p) (modeltype p) (transformation p)
                   (distance p) (outfile p) (tstart w) (tend w))
                (inr tarredfile);
         Shown (print [Str "Running SNOwGLoBES ..."]);
         Called (simulate (SNOwGLoBES_path p) tarredfile (detector p)) (inr tt);
         Shown (print [Str "Collating results ..."]);
         Called (collate (SNOwGLoBES_path p) tarredfile true) (inr tables);
         Shown (plt_plot (map (fun t => t - (742 # 1000))%Q (tmid w))
                         (map (fun n => n * f)%Q nev));
         Shown (plt_xlabel "$t-t_{2c}$ [s]");
         Shown (plt_ylabel "Counts [ms$^{-1}$]");
         Shown plt_show;
         Shown (print [Str "Total Events:"; Num (pysum nev)])] /\
    stages h = [FluenceGenerator; DetectorSimulator; Collator; Plot] /\
    length nev = length (tmid w) /\
    (forall i, (i < length (tmid w))%nat ->
       exists (t : table Q) (cols : list (list Q)),
         tables !! key p i = Some t /\
         Forall2 (fun j col => data t !! j = Some col)
           (range 1 (length (split (header t)))) cols /\
         nev !! i = Some (pysum (map pysum cols))) /\
    (forall (p' : params) (tables' : gmap string (table Q)),
       outfile p' = outfile p -> detector p' = detector p ->
       (forall i, (i < length (tmid w))%nat ->
          tables' !! key p i = tables !! key p i) ->
       aggregate p' (length (tmid w)) tables' = inr nev).
Proof.
  intros Hrun.
  destruct (time_windows p) as [e | w] eqn:Hw.
  { rewrite (notebook_run_no_windows _ _ _ Hw) in Hrun. discriminate. }
  rewrite (notebook_run _ _ _ Hw) in Hrun. cbv zeta in Hrun.
  run_cases Hrun; try discriminate.
  match goal with u : unit |- _ => destruct u end.
  injection Hrun as <-.
  match goal with
  | H : aggregate p (length (tmid w)) ?tables = inr ?nev |- _ =>
      rename H into Hagg; set (T := tables) in *; set (N := nev) in *
  end.
  pose proof (aggregate_inv p T _ _ Hagg) as Hok.
  destruct (aggregate_ok p T _ Hok) as (nev' & Hagg' & Hlen & Hin & _).
  rewrite Hagg in Hagg'. injection Hagg' as <-.
  eexists w, _, T, N, _.
  split; [reflexivity |]. split; [exact Hagg |]. split; [reflexivity |].
  split; [reflexivity |]. split; [reflexivity |]. split; [exact Hlen |]. split.
  - intros i Hi. destruct (Hin i Hi) as (t & Ht & Hres).
    exists t, (take (length (split (header t)) - 1) (drop 1 (data t))).
    split; [exact Ht |]. split; [| exact Hres].
    specialize (Hok i Hi). unfold bin_ok in Hok. rewrite Ht in Hok.
    unfold shape_ok in Hok. apply orb_true_iff in Hok.
    rewrite !Nat.leb_le in Hok. apply seq_columns. lia.
  - intros p' tables' Hout Hdet Hsame.
    unfold aggregate.
    rewrite (aggregation_loop_params p p' _ tables' Hout Hdet).
    rewrite (aggregation_loop_same p tables' T (length (tmid w))).
    + exact Hagg.
    + intros i Hi. rewrite (Hsame i Hi).
      apply option_Forall2_refl. intros t. apply same_summed_columns_refl.
Qed.

Lemma pipeline_data_flow_witness :
  exists h : list entry,
    run sample_toolkit [] (notebook notebook_params) = (h, inr tt) /\
    exists (w : windows) (tarredfile : string)
           (tables : gmap string (table Q)) (nev : list Q) (f : Q),
      time_windows notebook_params = inr w /\
      aggregate notebook_params (length (tmid w)) tables = inr nev /\
      factor notebook_params = inr f /\
      h = [Shown (print [Str "Preparing fluences ..."]);
           Called (generate_fluence (modelfile notebook_params) "Zha_2021"
                     "AdiabaticMSW_NMO" 10 (outfile notebook_params)
                     (tstart w) (tend w))
                  (inr tarredfile);
           Shown (print [Str "Running SNOwGLoBES ..."]);
           Called (simulate "/path/to/snowglobes/" tarredfile "icecube") (inr tt);
           Shown (print [Str "Collating results ..."]);
           Called (collate "/path/to/snowglobes/" tarredfile true) (inr tables);
           Shown (plt_plot (map (fun t => t - (742 # 1000))%Q (tmid w))
                           (map (fun n => n * f)%Q nev));
           Shown (plt_xlabel "$t-t_{2c}$ [s]");
           Shown (plt_ylabel "Counts [ms$^{-1}$]");
           Shown plt_show;
           Shown (print [Str "Total Events:"; Num (pysum nev)])] /\
      stages h = [FluenceGenerator; DetectorSimulator; Collator; Plot] /\
      length nev = length (tmid w) /\
      (forall i, (i < length (tmid w))%nat ->
         exists (t : table Q) (cols : list (list Q)),
           tables !! key notebook_params i = Some t /\
           Forall2 (fun j col => data t !! j = Some col)
             (range 1 (length (split (header t)))) cols /\
           nev !! i = Some (pysum (map pysum cols))) /\
      (forall (p' : params) (tables' : gmap string (table Q)),
         outfile p' = outfile notebook_params ->
         detector p' = detector notebook_params ->
         (forall i, (i < length (tmid w))%nat ->
            tables' !! key notebook_params i = tables !! key notebook_params i) ->
         aggregate p' (length (tmid w)) tables' = inr nev).
Proof.
  assert (Hr : (run sample_toolkit [] (notebook notebook_params)).2 = inr tt)
    by (vm_compute; reflexivity).
  destruct (run sample_toolkit [] (notebook notebook_params)) as [h r] eqn:Hrun.
  change (r = inr tt) in Hr. subst r.
  exists h. split; [reflexivity |].
  apply (pipeline_data_flow notebook_params sample_toolkit h Hrun).
Defined.

(** C4 as stated fails: the mapping returned by the collator is not the
    only input of the aggregation. The same mapping gives 60 counts for 60
    bins and 59 for 59, and a [KeyError] for another detector; and two
    notebooks whose collator returns this same mapping end differently. *)
Lemma pipeline_data_flow_counterexample :
  aggregate notebook_params 60 sample_tables = inr (replicate 60 18%Q) /\
  aggregate notebook_params 59 sample_tables = inr (replicate 59 18%Q) /\
  aggregate (with_detector "ar40kt") 60 sample_tables
  = inl (KeyError (key (with_detector "ar40kt") 0)) /\
  (run (toolkit_returning sample_tables) [] (notebook notebook_params)).2
  = inr tt /\
  (run (toolkit_returning sample_tables) [] (notebook (with_detector "ar40kt"))).2
  = inl (KeyError (key (with_detector "ar40kt") 0)).
Proof.
  split_and!; vm_compute; reflexivity.
Qed.
